(** * Python sandbox front end: code preparation and result rendering

    A shallow embedding of the editor page of the sandbox front end
    (the page that owns [wrapCodeInMainFunction],
    [prepareCodeForExecution], [analyzeTimeComplexity], [renderResult],
    [renderDataFrame], [renderSeries], [handleSubmit], the editor
    handlers and the output column of [EditorPage]), together with the
    earlier revision of the same page where the two differ.

    JavaScript strings are sequences of UTF-16 code units; they are
    modelled as lists of code units ([N]), so that [String.prototype.trim]
    and the regular expression word boundary keep their exact character
    classes. *)

From Stdlib Require Import String Ascii DecimalString.
From Stdlib Require Import List NArith Bool Arith Lia.
Import ListNotations.

Set Implicit Arguments.
Set Warnings "-register-all".

(** ** JavaScript strings *)

Definition jsstring : Type := list N.

(** An ASCII literal of the source, as code units. *)
Definition js (s : string) : jsstring :=
  map N_of_ascii (list_ascii_of_string s).

(** The line feed, written [\n] in the source. *)
Definition nl : N := 10%N.

Local Open Scope N_scope.

(** [WhiteSpace] and [LineTerminator] of ECMAScript: what [trim] strips. *)
Definition isWhiteSpace (c : N) : bool :=
  existsb (N.eqb c)
    [9; 10; 11; 12; 13; 32; 160; 5760; 8232; 8233; 8239; 8287; 12288; 65279]
  || ((8192 <=? c) && (c <=? 8202)).

(** The word characters of a regular expression without the [u] and [i]
    flags: [A-Za-z0-9_]. *)
Definition isWordChar (c : N) : bool :=
  ((48 <=? c) && (c <=? 57)) || ((65 <=? c) && (c <=? 90))
  || (c =? 95) || ((97 <=? c) && (c <=? 122)).

Local Close Scope N_scope.

Fixpoint dropWhile (A : Type) (f : A -> bool) (l : list A) : list A :=
  match l with
  | [] => []
  | x :: l' => if f x then dropWhile f l' else l
  end.

Definition trimStart (s : jsstring) : jsstring := dropWhile isWhiteSpace s.

Definition trimEnd (s : jsstring) : jsstring :=
  rev (dropWhile isWhiteSpace (rev s)).

(** [String.prototype.trim]. *)
Definition trim (s : jsstring) : jsstring := trimEnd (trimStart s).

(** [s.split(sep)] for a one-character separator: always at least one
    segment, the empty string splits into one empty segment. *)
Fixpoint split (sep : N) (s : jsstring) : list jsstring :=
  match s with
  | [] => [[]]
  | c :: s' =>
      if N.eqb c sep then [] :: split sep s'
      else match split sep s' with
           | l :: ls => (c :: l) :: ls
           | [] => [[c]]
           end
  end.

(** [ls.join(sep)]. *)
Fixpoint join (sep : jsstring) (ls : list jsstring) : jsstring :=
  match ls with
  | [] => []
  | [l] => l
  | l :: ls' => l ++ sep ++ join sep ls'
  end.

(** [s.startsWith(t)]. *)
Fixpoint startsWith (t s : jsstring) : bool :=
  match t, s with
  | [], _ => true
  | _ :: _, [] => false
  | a :: t', b :: s' => N.eqb b a && startsWith t' s'
  end.

(** [s.includes(t)]. *)
Fixpoint includes (s t : jsstring) : bool :=
  startsWith t s ||
  match s with
  | [] => false
  | _ :: s' => includes s' t
  end.

Definition jsstring_eqb (a b : jsstring) : bool :=
  if list_eq_dec N.eq_dec a b then true else false.

(** ** Regular expressions: literals and the word-boundary assertion *)

Inductive atom : Type :=
| WordBoundary
| Lit (c : N).

Definition isWordOpt (o : option N) : bool :=
  match o with
  | Some c => isWordChar c
  | None => false
  end.

(** Match the pattern with its first atom at the current position; [prev]
    is the code unit just before that position, if any. *)
Fixpoint matchAt (pat : list atom) (prev : option N) (s : jsstring) : bool :=
  match pat with
  | [] => true
  | WordBoundary :: p =>
      xorb (isWordOpt prev) (isWordOpt (hd_error s)) && matchAt p prev s
  | Lit c :: p =>
      match s with
      | x :: s' => N.eqb x c && matchAt p (Some x) s'
      | [] => false
      end
  end.

Fixpoint searchFrom (pat : list atom) (prev : option N) (s : jsstring) : bool :=
  matchAt pat prev s ||
  match s with
  | [] => false
  | x :: s' => searchFrom pat (Some x) s'
  end.

(** [re.test(s)] for a pattern without the [g] or [y] flag. *)
Definition regexTest (pat : list atom) (s : jsstring) : bool :=
  searchFrom pat None s.

Definition kwReturn : jsstring := js "return".

(** The pattern [/\breturn\b/]. *)
Definition returnRegex : list atom :=
  WordBoundary :: map Lit kwReturn ++ [WordBoundary].

(** ** The code preparer *)

Inductive ExecutionMode : Type := script | function.

Definition indent (line : jsstring) : jsstring := js "    " ++ line.

Definition mainHeader : jsstring := js "def main():".

Definition noopProgram : jsstring :=
  mainHeader ++ nl :: js "    pass" ++ [nl].

Definition wrapCodeInMainFunction (userCode : jsstring) : jsstring :=
  let trimmedCode := trim userCode in
  match trimmedCode with
  | [] => noopProgram
  | _ :: _ =>
      let lines := split nl trimmedCode in
      let indentedLines := join [nl] (map indent lines) in
      mainHeader ++ nl :: indentedLines ++ [nl]
  end.

Definition prepareCodeForExecution (userCode : jsstring) (mode : ExecutionMode)
  : jsstring :=
  let hasReturnStatement := regexTest returnRegex (trim userCode) in
  match mode with
  | script =>
      if hasReturnStatement then wrapCodeInMainFunction userCode
      else userCode
  | function => wrapCodeInMainFunction userCode
  end.

(** The mode line in the header of [EditorPage]. *)
Definition modeLabel (userCode : jsstring) (executionMode : ExecutionMode)
  : jsstring :=
  match executionMode with
  | function => js "Function Mode (main() wrapper)"
  | script =>
      if regexTest returnRegex (trim userCode)
      then js "Script Mode (auto-function for return)"
      else js "Script Mode (direct execution)"
  end.

(** ** JSON values and their string forms *)

Fixpoint lookup (A : Type) (k : jsstring) (o : list (jsstring * A)) : option A :=
  match o with
  | [] => None
  | (k', v) :: o' => if jsstring_eqb k' k then Some v else lookup k o'
  end.

Fixpoint mapi_from (A B : Type) (f : A -> nat -> B) (i : nat) (l : list A)
  : list B :=
  match l with
  | [] => []
  | x :: l' => f x i :: mapi_from f (S i) l'
  end.

(** [l.map((x, i) => f(x, i))]. *)
Definition mapi (A B : Type) (f : A -> nat -> B) (l : list A) : list B :=
  mapi_from f 0 l.

(** Decimal form of a non-negative integer, as [String] gives it for a
    length or a position. *)
Definition natToString (n : nat) : jsstring :=
  js (NilZero.string_of_uint (Nat.to_uint n)).

Local Open Scope N_scope.

Definition hexDigit (d : N) : N :=
  nth (N.to_nat d) (js "0123456789abcdef") 48.

(** The escape [\uXXXX] of one code unit, lower-case digits. *)
Definition unicodeEscape (c : N) : jsstring :=
  js "\u" ++ [hexDigit (c / 4096 mod 16); hexDigit (c / 256 mod 16);
              hexDigit (c / 16 mod 16); hexDigit (c mod 16)].

Definition isHighSurrogate (c : N) : bool := (55296 <=? c) && (c <=? 56319).
Definition isLowSurrogate (c : N) : bool := (56320 <=? c) && (c <=? 57343).

Definition escapeUnit (c : N) : jsstring :=
  if c =? 8 then js "\b"
  else if c =? 9 then js "\t"
  else if c =? 10 then js "\n"
  else if c =? 12 then js "\f"
  else if c =? 13 then js "\r"
  else if c =? 34 then [92; 34]
  else if c =? 92 then [92; 92]
  else if c <? 32 then unicodeEscape c
  else [c].

Fixpoint quoteBody (s : jsstring) : jsstring :=
  match s with
  | [] => []
  | c :: s' =>
      if isHighSurrogate c then
        match s' with
        | d :: s'' =>
            if isLowSurrogate d then c :: d :: quoteBody s''
            else unicodeEscape c ++ quoteBody s'
        | [] => unicodeEscape c
        end
      else if isLowSurrogate c then unicodeEscape c ++ quoteBody s'
      else escapeUnit c ++ quoteBody s'
  end.

(** [QuoteJSONString] of ECMAScript: what [JSON.stringify] does to a
    string. *)
Definition quoteJSONString (s : jsstring) : jsstring :=
  34 :: quoteBody s ++ [34].

Local Close Scope N_scope.

(** The element tree that a render function returns.  Presentational
    attributes ([className], [style], [key]) are left out; the tree keeps
    tags, the remaining attributes and the children in document order. *)
Inductive node : Type :=
| Text (s : jsstring)
| Elem (tag : string) (attrs : list (string * jsstring)) (children : list node).

Definition elem (tag : string) (children : list node) : node :=
  Elem tag [] children.

Definition attr (name : string) (value : jsstring) : string * jsstring :=
  (name, value).

(** [{c && x}] for a condition that is [false], [undefined] or the empty
    string when it fails: React renders nothing for it. *)
Definition when (c : bool) (x : list node) : list node :=
  if c then x else [].

(** The text below a node, in document order. *)
Fixpoint textContent (n : node) : jsstring :=
  match n with
  | Text s => s
  | Elem _ _ kids => List.concat (map textContent kids)
  end.


Definition childrenOf (n : node) : list node :=
  match n with
  | Text _ => []
  | Elem _ _ kids => kids
  end.

(** All elements with the given tag below a node (the node included), in
    document order: [querySelectorAll(tag)]. *)
Fixpoint elementsByTag (t : string) (n : node) : list node :=
  match n with
  | Text _ => []
  | Elem t' _ kids =>
      (if String.eqb t' t then [n] else [])
      ++ List.concat (map (elementsByTag t) kids)
  end.

(** ** The page's surroundings

    What [handleSubmit] reads from its host and what it does to the
    outside world.  [hostname] is [None] where [window] is undefined;
    [NEXT_PUBLIC_FLASK_API_URL] is [None] where the variable is not set. *)

Record Host : Type := {
  hostname : option jsstring;
  NEXT_PUBLIC_FLASK_API_URL : option jsstring
}.

Inductive AbortController : Type := NewAbortController.

Inductive effect : Type :=
| ConsoleLog (args : list jsstring)
| ConsoleError (args : list jsstring)
| Abort
| Fetch (url : jsstring) (body : jsstring).

(** A value caught by the [catch] clause of [handleSubmit]. *)
Record Thrown : Type := {
  thrown_isError : bool;   (* [err instanceof Error] *)
  thrown_name : jsstring;
  thrown_message : jsstring;
  thrown_string : jsstring (* [String(err)] *)
}.

(** [a || b] on strings: the empty string is falsy. *)
Definition orElse (a b : jsstring) : jsstring :=
  match a with
  | [] => b
  | _ :: _ => a
  end.

(** [typeof window !== 'undefined' && (hostname === 'localhost' ||
    hostname === '127.0.0.1' || hostname.includes('.local'))]. *)
Definition isLocalDev (h : Host) : bool :=
  match hostname h with
  | None => false
  | Some name =>
      jsstring_eqb name (js "localhost")
      || jsstring_eqb name (js "127.0.0.1")
      || includes name (js ".local")
  end.

Definition localApiUrl : jsstring := js "http://localhost:5000/execute".

Definition msgNotConfigured : jsstring :=
  js "API URL not configured. For production, set NEXT_PUBLIC_FLASK_API_URL in your .env file.".

Definition msgEnterCode : jsstring :=
  js "Please enter some Python code to execute.".

Definition msgCancelled : jsstring := js "Execution cancelled by user.".

Definition msgNetwork : jsstring := js "Fetch/Network error:".

(** [JSON.stringify({ script: scriptToSend })]. *)
Definition requestBody (scriptToSend : jsstring) : jsstring :=
  js "{" ++ quoteJSONString (js "script") ++ js ":"
  ++ quoteJSONString scriptToSend ++ js "}".

(** A JSON number is an IEEE double.  The model leaves the type open and
    takes from the host the two facts the page uses about a number: its
    decimal string form ([Number.prototype.toString]) and its truth value
    (false for [0] and [NaN]). *)
Class Number (number : Type) : Type := {
  numberToString : number -> jsstring;
  numberIsTruthy : number -> bool
}.





(** A parsed object inherits from [Object.prototype]: reading a key the
    object does not own finds a member of the prototype when the key
    names one.  These are its methods; [__proto__] is its one accessor. *)
Definition objectPrototypeMethods : list jsstring :=
  [js "constructor"; js "hasOwnProperty"; js "isPrototypeOf";
   js "propertyIsEnumerable"; js "toLocaleString"; js "toString";
   js "valueOf"; js "__defineGetter__"; js "__defineSetter__";
   js "__lookupGetter__"; js "__lookupSetter__"].

Definition protoKey : jsstring := js "__proto__".

(** [String(f)] for a built-in function [f] is text the implementation
    chooses; the model takes it from the host, by the name of the member
    of [Object.prototype] that holds the function. *)
Class Builtins : Type := {
  nativeFunctionToString : jsstring -> jsstring
}.

(** What [o[k]] finds in a parsed object. *)
Inductive propertyRead (A : Type) : Type :=
| Own (v : A)                        (* an own property *)
| InheritedMethod (k : jsstring)     (* a method of [Object.prototype] *)
| InheritedProto                     (* [Object.prototype] itself *)
| Absent.                            (* [undefined] *)

Arguments InheritedMethod {A} k.
Arguments InheritedProto {A}.
Arguments Absent {A}.

(** [o[k]]: the own property first, then the prototype. *)
Definition readProperty (A : Type) (o : list (jsstring * A)) (k : jsstring)
  : propertyRead A :=
  match lookup k o with
  | Some v => Own v
  | None =>
      if jsstring_eqb k protoKey then InheritedProto
      else if existsb (jsstring_eqb k) objectPrototypeMethods
           then InheritedMethod k
           else Absent
  end.

Section Page.

Context {number : Type} {numberOps : Number number} {builtins : Builtins}.

Inductive JsonValue : Type :=
| JNull
| JBool (b : bool)
| JNum (n : number)
| JStr (s : jsstring)
| JArr (items : list JsonValue)
| JObj (props : list (jsstring * JsonValue)).

(** An object is the list of its own properties in enumeration order. *)
Definition JsonObject : Type := list (jsstring * JsonValue).

(** [String(v)]. *)
Fixpoint toString (v : JsonValue) : jsstring :=
  match v with
  | JNull => js "null"
  | JBool true => js "true"
  | JBool false => js "false"
  | JNum n => numberToString n
  | JStr s => s
  | JArr items =>
      join (js ",")
        (map (fun e => match e with JNull => [] | _ => toString e end) items)
  | JObj _ => js "[object Object]"
  end.

(** [String(v)] for a value that may be [undefined]. *)
Definition toStringU (v : option JsonValue) : jsstring :=
  match v with
  | Some v => toString v
  | None => js "undefined"
  end.

(** [String(row[col])]: the string form of what the read finds; the
    prototype object prints as any plain object does. *)
Definition cellText (row : JsonObject) (col : jsstring) : jsstring :=
  match readProperty row col with
  | Own v => toString v
  | InheritedMethod k => nativeFunctionToString k
  | InheritedProto => js "[object Object]"
  | Absent => js "undefined"
  end.

(** [JSON.stringify(v, null, 2)] at the current indentation. *)
Fixpoint stringifyAt (ind : jsstring) (v : JsonValue) : jsstring :=
  let ind' := ind ++ js "  " in
  match v with
  | JNull => js "null"
  | JBool true => js "true"
  | JBool false => js "false"
  | JNum n => numberToString n
  | JStr s => quoteJSONString s
  | JArr [] => js "[]"
  | JArr items =>
      js "[" ++ nl :: ind'
      ++ join (js "," ++ nl :: ind') (map (stringifyAt ind') items)
      ++ nl :: ind ++ js "]"
  | JObj [] => js "{}"
  | JObj props =>
      js "{" ++ nl :: ind'
      ++ join (js "," ++ nl :: ind')
           (map (fun kv => quoteJSONString (fst kv) ++ js ": "
                           ++ stringifyAt ind' (snd kv)) props)
      ++ nl :: ind ++ js "}"
  end.

Definition JSON_stringify (v : JsonValue) : jsstring := stringifyAt [] v.

(** [typeof v === 'object']: objects, arrays and [null]. *)
Definition typeofObject (v : JsonValue) : bool :=
  match v with
  | JNull | JArr _ | JObj _ => true
  | _ => false
  end.

(** ** The tagged result variants

    [renderResult] casts the parsed value to one of these interfaces
    without checking it ([typedResult as unknown as DataFrameResult]).
    The [as...] functions below give the record for a payload that
    inhabits the interface, and [None] for any other payload: rendering
    those is outside the typed contract and is not modelled (the page
    renders some of them and throws on others).  For a data frame the
    contract includes that [df.dtypes[col]] is a string or nothing for
    every column: a column [__proto__] without a declared type reads the
    prototype object, which React refuses as a child. *)

Record DataFrameResult : Type := {
  df_data : list JsonObject;
  df_columns : list jsstring;
  df_index : list JsonValue;
  df_shape : number * number;
  df_dtypes : list (jsstring * jsstring)
}.

Record SeriesResult : Type := {
  series_data : JsonObject;
  series_name : option jsstring;
  series_dtype : jsstring;
  series_index : list JsonValue
}.

Record ImageResult : Type := {
  image_format : jsstring;
  image_data : jsstring;
  image_size : number * number;
  image_mode : jsstring
}.

Record UnserializableResult : Type := {
  unser_value : jsstring;
  unser_type : jsstring
}.

Definition bind (A B : Type) (x : option A) (f : A -> option B) : option B :=
  match x with
  | Some a => f a
  | None => None
  end.

Notation "x <- e ;; k" := (bind e (fun x => k))
  (at level 61, e at next level, right associativity).

Fixpoint traverse (A B : Type) (f : A -> option B) (l : list A)
  : option (list B) :=
  match l with
  | [] => Some []
  | x :: l' => y <- f x ;; ys <- traverse f l' ;; Some (y :: ys)
  end.

Definition asString (v : JsonValue) : option jsstring :=
  match v with JStr s => Some s | _ => None end.

Definition asNumber (v : JsonValue) : option number :=
  match v with JNum n => Some n | _ => None end.

Definition asArray (v : JsonValue) : option (list JsonValue) :=
  match v with JArr l => Some l | _ => None end.

Definition asObject (v : JsonValue) : option JsonObject :=
  match v with JObj o => Some o | _ => None end.

Definition asPair (v : JsonValue) : option (number * number) :=
  match v with
  | JArr [JNum a; JNum b] => Some (a, b)
  | _ => None
  end.

Definition asStringRecord (v : JsonValue) : option (list (jsstring * jsstring)) :=
  o <- asObject v ;;
  traverse (fun kv => s <- asString (snd kv) ;; Some (fst kv, s)) o.

Definition asDataFrameResult (o : JsonObject) : option DataFrameResult :=
  data <- (v <- lookup (js "data") o ;; l <- asArray v ;; traverse asObject l) ;;
  columns <- (v <- lookup (js "columns") o ;; l <- asArray v ;;
              traverse asString l) ;;
  index <- (v <- lookup (js "index") o ;; asArray v) ;;
  shape <- (v <- lookup (js "shape") o ;; asPair v) ;;
  dtypes <- (v <- lookup (js "dtypes") o ;; asStringRecord v) ;;
  if existsb (fun col =>
                match readProperty dtypes col with
                | InheritedProto => true
                | _ => false
                end) columns
  then None
  else Some {| df_data := data; df_columns := columns; df_index := index;
               df_shape := shape; df_dtypes := dtypes |}.

Definition asSeriesResult (o : JsonObject) : option SeriesResult :=
  data <- (v <- lookup (js "data") o ;; asObject v) ;;
  name <- (v <- lookup (js "name") o ;;
           match v with
           | JNull => Some None
           | JStr s => Some (Some s)
           | _ => None
           end) ;;
  dtype <- (v <- lookup (js "dtype") o ;; asString v) ;;
  index <- (v <- lookup (js "index") o ;; asArray v) ;;
  Some {| series_data := data; series_name := name; series_dtype := dtype;
          series_index := index |}.

Definition asImageResult (o : JsonObject) : option ImageResult :=
  format <- (v <- lookup (js "format") o ;; asString v) ;;
  data <- (v <- lookup (js "data") o ;; asString v) ;;
  size <- (v <- lookup (js "size") o ;; asPair v) ;;
  mode <- (v <- lookup (js "mode") o ;; asString v) ;;
  Some {| image_format := format; image_data := data; image_size := size;
          image_mode := mode |}.

Definition asUnserializableResult (o : JsonObject)
  : option UnserializableResult :=
  value <- (v <- lookup (js "value") o ;; asString v) ;;
  type <- (v <- lookup (js "type") o ;; asString v) ;;
  Some {| unser_value := value; unser_type := type |}.

(** ** Rendering the result *)

Definition maxRows : nat := 10.

(** The header row: the [Index] cell, then one cell per column with the
    column name and, below it, [df.dtypes[col]]: the declared type name,
    and nothing when the column has no entry there (React renders
    nothing for [undefined], and nothing for a method inherited from
    [Object.prototype]; the one read React refuses, the prototype object
    under [__proto__], is excluded from the frames by
    [asDataFrameResult]). *)
Definition dataFrameHeaderCell (df : DataFrameResult) (col : jsstring) : node :=
  elem "th"
    [Text col;
     elem "div" match lookup col (df_dtypes df) with
                | Some t => [Text t]
                | None => []
                end].

Definition dataFrameHeader (df : DataFrameResult) : node :=
  elem "tr"
    (elem "th" [Text (js "Index")]
     :: map (dataFrameHeaderCell df) (df_columns df)).

Definition dataFrameRow (df : DataFrameResult) (row : JsonObject) (rowIdx : nat)
  : node :=
  elem "tr"
    (elem "td" [Text (toStringU (nth_error (df_index df) rowIdx))]
     :: map (fun col => elem "td" [Text (cellText row col)])
          (df_columns df)).

Definition dataFrameSummaryRow (df : DataFrameResult) : node :=
  elem "tr"
    [Elem "td" [attr "colSpan" (natToString (length (df_columns df) + 1))]
       [Text (js "... and ");
        Text (natToString (length (df_data df) - maxRows));
        Text (js " more rows")]].

Definition dataFrameBody (df : DataFrameResult) : list node :=
  let displayData := firstn maxRows (df_data df) in
  let hasMoreRows := maxRows <? length (df_data df) in
  mapi (dataFrameRow df) displayData
  ++ when hasMoreRows [dataFrameSummaryRow df].

Definition renderDataFrame (df : DataFrameResult) : node :=
  elem "div"
    [elem "div"
       [elem "span" [Text ([55357; 56522]%N ++ js " pandas DataFrame")];
        elem "span"
          [Text (js "Shape: "); Text (numberToString (fst (df_shape df)));
           Text (js " " ++ [215%N] ++ js " ");
           Text (numberToString (snd (df_shape df)))]];
     elem "div"
       [elem "table"
          [elem "thead" [dataFrameHeader df];
           elem "tbody" (dataFrameBody df)]]].

Definition maxItems : nat := 10.

Definition renderSeries (series : SeriesResult) : node :=
  let entries := firstn maxItems (series_data series) in
  let hasMoreItems := maxItems <? length (series_data series) in
  elem "div"
    [elem "div"
       [elem "span"
          [Text ([55357; 56520]%N ++ js " pandas Series ");
           Text match series_name series with
                | Some ((_ :: _) as name) => js "(" ++ name ++ js ")"
                | _ => []
                end];
        elem "span" [Text (js "dtype: "); Text (series_dtype series)]];
     elem "div"
       (map (fun entry =>
               elem "div"
                 [elem "span" [Text (fst entry)];
                  elem "span" [Text [8594%N]];
                  elem "span" [Text (toString (snd entry))]])
          entries
        ++ when hasMoreItems
             [elem "div"
                [Text (js "... and ");
                 Text (natToString (length (series_data series) - maxItems));
                 Text (js " more items")]])].

Definition renderImage (image : ImageResult) : node :=
  elem "div"
    [elem "div"
       [elem "span" [Text ([55357; 56764; 65039]%N ++ js " PIL Image")];
        elem "span"
          [Text (numberToString (fst (image_size image)));
           Text (js " " ++ [215%N] ++ js " ");
           Text (numberToString (snd (image_size image)));
           Text (js " ("); Text (image_mode image); Text (js ")")]];
     elem "div"
       [Elem "img" [attr "src" (image_data image); attr "alt" (js "PIL Image")] []]].

Definition renderUnserializable (obj : UnserializableResult) : node :=
  elem "div"
    [elem "div"
       [elem "span" [Text ([55357; 56615]%N ++ js " Unserializable Object")];
        elem "span" [Text (js "Type: "); Text (unser_type obj)]];
     elem "pre" [Text (unser_value obj)]].

(** The default JSON rendering at the end of [renderResult]. *)
Definition renderDefault (result : JsonValue) : node :=
  elem "pre"
    [Text (if typeofObject result then JSON_stringify result
           else toString result)].

Definition renderResult (result : JsonValue) : option node :=
  match result with
  | JObj o =>
      match lookup (js "_type") o with
      | Some (JStr t) =>
          if jsstring_eqb t (js "dataframe") then
            option_map renderDataFrame (asDataFrameResult o)
          else if jsstring_eqb t (js "series") then
            option_map renderSeries (asSeriesResult o)
          else if jsstring_eqb t (js "image") then
            option_map renderImage (asImageResult o)
          else if jsstring_eqb t (js "unserializable") then
            option_map renderUnserializable (asUnserializableResult o)
          else Some (renderDefault result)
      | _ => Some (renderDefault result)
      end
  | _ => Some (renderDefault result)
  end.

(** ** The response and the output column *)

Record Visualization : Type := {
  viz_type : jsstring;
  viz_format : jsstring;
  viz_data : jsstring;
  viz_figure_number : option number
}.

(** [performance], the fifth field of the interface, feeds the metrics
    strip under the editor; the output column does not read it and it is
    left out. *)
Record ApiResponse : Type := {
  stdout : jsstring;
  result : option JsonValue;        (* [None]: the property is absent *)
  error : option jsstring;
  visualizations : option (list Visualization)
}.

Definition isSome (A : Type) (o : option A) : bool :=
  match o with Some _ => true | None => false end.

(** A string is truthy when it is present and not empty. *)
Definition truthy (s : option jsstring) : bool :=
  match s with
  | Some (_ :: _) => true
  | _ => false
  end.

Definition nonEmpty (A : Type) (l : list A) : bool :=
  match l with [] => false | _ :: _ => true end.

(** [apiResponse.visualizations && apiResponse.visualizations.length > 0]. *)
Definition hasVisualizations (r : ApiResponse) : bool :=
  match visualizations r with
  | Some (_ :: _) => true
  | _ => false
  end.

(** [apiResponse.hasOwnProperty('result') && apiResponse.result !== null
    && apiResponse.result !== undefined]. *)
Definition hasResult (r : ApiResponse) : bool :=
  match result r with
  | Some JNull | None => false
  | Some _ => true
  end.

Definition renderVisualization (viz : Visualization) (index : nat) : node :=
  elem "div"
    [elem "div"
       [elem "span"
          [Text (if jsstring_eqb (viz_type viz) (js "matplotlib")
                 then [55357; 56520]%N ++ js " Matplotlib Figure "
                      ++ match viz_figure_number viz with
                         | Some n => if numberIsTruthy n then numberToString n
                                     else natToString (index + 1)
                         | None => natToString (index + 1)
                         end
                 else viz_type viz)];
        elem "span" [Text (viz_format viz)]];
     elem "div"
       [Elem "img"
          [attr "src" (viz_data viz);
           attr "alt" (js "Visualization " ++ natToString (index + 1))] []]].

Definition errorPanel (r : ApiResponse) : list node :=
  match error r with
  | Some ((_ :: _) as e) =>
      [elem "div" [elem "h3" [Text (js "API Error:")]; elem "pre" [Text e]]]
  | _ => []
  end.

Definition visualizationsPanel (r : ApiResponse) : list node :=
  match visualizations r with
  | Some ((_ :: _) as vs) =>
      [elem "div"
         [elem "h3" [Text ([55357; 56522]%N ++ js " Visualizations:")];
          elem "div" (mapi renderVisualization vs)]]
  | _ => []
  end.

(** [{apiResponse.stdout && (<div> ... <pre>{apiResponse.stdout ||
    <span>No standard output.</span>}</pre></div>)}]. *)
Definition stdoutPanel (r : ApiResponse) : list node :=
  when (nonEmpty (stdout r))
    [elem "div"
       [elem "h3" [Text ([55357; 56541]%N ++ js " Stdout:")];
        elem "pre"
          [match stdout r with
           | _ :: _ => Text (stdout r)
           | [] => elem "span" [Text (js "No standard output.")]
           end]]].

Definition resultPanel (executionMode : ExecutionMode) (r : ApiResponse)
  : option (list node) :=
  match result r with
  | Some JNull | None => Some []
  | Some v =>
      rendered <- renderResult v ;;
      Some [elem "div"
              [elem "h3"
                 [Text ([55356; 57263]%N ++ js " Result ");
                  Text match executionMode with
                       | function => js "(from main()):"
                       | script => js "(script output):"
                       end];
               rendered]]
  end.

Definition noOutputNotice (isLoading : bool) (r : ApiResponse) : list node :=
  when (negb (truthy (error r)) && negb (nonEmpty (stdout r))
        && negb (hasVisualizations r) && negb (hasResult r)
        && negb isLoading)
    [elem "p"
       [Text (js "Script executed with no output, visualizations, or result.")]].

(** The fragment under [{apiResponse && ( ... )}]. *)
Definition renderApiResponse (executionMode : ExecutionMode) (isLoading : bool)
  (r : ApiResponse) : option (list node) :=
  res <- resultPanel executionMode r ;;
  Some (errorPanel r ++ visualizationsPanel r ++ stdoutPanel r ++ res
        ++ noOutputNotice isLoading r).

(** ** The page state and the submission *)

Record PageState : Type := {
  userCode : jsstring;
  executionMode : ExecutionMode;
  apiResponse : option ApiResponse;
  isLoading : bool;
  abortController : option AbortController
}.

(** The output column of [EditorPage] below the static card of supported
    libraries: spinner, response panels, or the placeholder. *)
Definition outputColumn (st : PageState) : option (list node) :=
  panels <- match apiResponse st with
            | Some r => renderApiResponse (executionMode st) (isLoading st) r
            | None => Some []
            end ;;
  Some (when (isLoading st && negb (isSome (apiResponse st)))
          [elem "div"
             [Elem "Spinner" [attr "size" (js "w-8 h-8")] [];
              elem "p" [Text (js "Executing code...")]]]
        ++ panels
        ++ when (negb (isLoading st) && negb (isSome (apiResponse st)))
             [elem "p" [Text (js "Output will appear here after execution.")]]).

Definition setApiResponse (r : option ApiResponse) (st : PageState) : PageState :=
  {| userCode := userCode st; executionMode := executionMode st;
     apiResponse := r; isLoading := isLoading st;
     abortController := abortController st |}.

Definition setIsLoading (b : bool) (st : PageState) : PageState :=
  {| userCode := userCode st; executionMode := executionMode st;
     apiResponse := apiResponse st; isLoading := b;
     abortController := abortController st |}.

Definition setAbortController (c : option AbortController) (st : PageState)
  : PageState :=
  {| userCode := userCode st; executionMode := executionMode st;
     apiResponse := apiResponse st; isLoading := isLoading st;
     abortController := c |}.

(** [handleSubmit] up to the point where it awaits [fetch]: the new state
    and what was done, in order.  A [Fetch] effect is the request. *)
Definition handleSubmit (h : Host) (st : PageState) : PageState * list effect :=
  if isLoading st && isSome (abortController st) then
    (setIsLoading false (setAbortController None st),
     [Abort; ConsoleLog [msgCancelled]])
  else
    match trim (userCode st) with
    | [] => (setApiResponse None st, [ConsoleError [msgEnterCode]])
    | _ :: _ =>
        let st1 := setApiResponse None (setIsLoading true st) in
        let send (log : list effect) (apiUrl : jsstring) :=
          let scriptToSend :=
            prepareCodeForExecution (userCode st) (executionMode st) in
          (setAbortController (Some NewAbortController) st1,
           log ++ [Fetch apiUrl (requestBody scriptToSend)]) in
        if isLocalDev h then
          let apiUrl := localApiUrl in
          send [ConsoleLog [[55357; 56615]%N ++ js " Using local API:"; apiUrl]]
               apiUrl
        else
          let apiUrl :=
            match NEXT_PUBLIC_FLASK_API_URL h with
            | Some u => orElse u []
            | None => []
            end in
          match apiUrl with
          | [] => (setIsLoading false st1, [ConsoleError [msgNotConfigured]])
          | _ :: _ =>
              send [ConsoleLog [[55356; 57104]%N ++ js " Using production API:";
                                apiUrl]]
                   apiUrl
          end
    end.

(** How the awaited request ends: a response whose body parsed, or an
    exception from [fetch] or [response.json()]. *)
Inductive outcome : Type :=
| Responded (ok : bool) (status : nat) (statusText : jsstring)
    (data : ApiResponse)
| Failed (err : Thrown).

(** The rest of [handleSubmit]: the [try] body after the [await], the
    [catch] clause and the [finally] clause. *)
Definition handleSubmit_settle (o : outcome) (st : PageState)
  : PageState * list effect :=
  let finally (st : PageState) := setAbortController None (setIsLoading false st) in
  match o with
  | Responded ok status statusText data =>
      if ok then (finally (setApiResponse (Some data) st), [])
      else
        let errorMessage :=
          js "API Error (Status " ++ natToString status ++ js "): "
          ++ orElse (match error data with Some e => e | None => [] end)
               (orElse statusText (js "Unknown API error")) in
        (finally (setApiResponse (Some data) st), [ConsoleError [errorMessage]])
  | Failed err =>
      if thrown_isError err && jsstring_eqb (thrown_name err) (js "AbortError")
      then (finally st, [ConsoleLog [msgCancelled]])
      else
        (finally st,
         [ConsoleError [msgNetwork; thrown_string err];
          ConsoleError
            [if thrown_isError err
             then orElse (thrown_message err)
                    (js "Failed to connect or parse response.")
             else orElse (thrown_string err) (js "An unknown error occurred.")]])
  end.

End Page.

Arguments JsonValue number : clear implicits.
Arguments JsonObject number : clear implicits.
Arguments DataFrameResult number : clear implicits.
Arguments SeriesResult number : clear implicits.
Arguments ImageResult number : clear implicits.
Arguments Visualization number : clear implicits.
Arguments ApiResponse number : clear implicits.
Arguments PageState number : clear implicits.
Arguments outcome number : clear implicits.
Arguments JNull {number}.
Arguments JBool {number} b.
Arguments JNum {number} n.
Arguments JStr {number} s.
Arguments JArr {number} items.
Arguments JObj {number} props.
Arguments Failed {number} err.

(** ** The earlier revision of the page

    It differs from the page above in [prepareCodeForExecution] (no scan
    for [return]) and in how [handleSubmit] builds the production URL and
    reports ([setNetworkError] instead of the console).  The start of a
    submission never reads the response, so its type is left open. *)

Module Earlier.
Section Page.

Variable ApiResponse : Type.

Definition prepareCodeForExecution (userCode : jsstring) (mode : ExecutionMode)
  : jsstring :=
  match mode with
  | script => userCode
  | function => wrapCodeInMainFunction userCode
  end.

Record PageState : Type := {
  userCode : jsstring;
  executionMode : ExecutionMode;
  apiResponse : option ApiResponse;
  isLoading : bool;
  networkError : option jsstring;
  abortController : option AbortController
}.

Definition setApiResponse (r : option ApiResponse) (st : PageState) : PageState :=
  {| userCode := userCode st; executionMode := executionMode st;
     apiResponse := r; isLoading := isLoading st;
     networkError := networkError st;
     abortController := abortController st |}.

Definition setIsLoading (b : bool) (st : PageState) : PageState :=
  {| userCode := userCode st; executionMode := executionMode st;
     apiResponse := apiResponse st; isLoading := b;
     networkError := networkError st;
     abortController := abortController st |}.

Definition setNetworkError (e : option jsstring) (st : PageState) : PageState :=
  {| userCode := userCode st; executionMode := executionMode st;
     apiResponse := apiResponse st; isLoading := isLoading st;
     networkError := e;
     abortController := abortController st |}.

Definition setAbortController (c : option AbortController) (st : PageState)
  : PageState :=
  {| userCode := userCode st; executionMode := executionMode st;
     apiResponse := apiResponse st; isLoading := isLoading st;
     networkError := networkError st;
     abortController := c |}.

(** [process.env.NEXT_PUBLIC_FLASK_API_URL + '/execute']: an unset
    variable is [undefined], and [undefined + '/execute'] is the string
    [undefined/execute]. *)
Definition productionApiUrl (h : Host) : jsstring :=
  match NEXT_PUBLIC_FLASK_API_URL h with
  | Some u => u
  | None => js "undefined"
  end ++ js "/execute".

(** [handleSubmit] of the earlier revision up to the awaited [fetch]. *)
Definition handleSubmit (h : Host) (st : PageState) : PageState * list effect :=
  if isLoading st && match abortController st with Some _ => true | None => false end
  then
    (setNetworkError (Some msgCancelled)
       (setIsLoading false (setAbortController None st)),
     [Abort])
  else
    match trim (userCode st) with
    | [] => (setApiResponse None (setNetworkError (Some msgEnterCode) st), [])
    | _ :: _ =>
        let st1 :=
          setApiResponse None (setNetworkError None (setIsLoading true st)) in
        let send (log : list effect) (apiUrl : jsstring) :=
          let scriptToSend :=
            prepareCodeForExecution (userCode st) (executionMode st) in
          (setAbortController (Some NewAbortController) st1,
           log ++ [Fetch apiUrl (requestBody scriptToSend)]) in
        if isLocalDev h then
          let apiUrl := localApiUrl in
          send [ConsoleLog [[63743; 252; 238; 223]%N ++ js " Using local API:";
                            apiUrl]]
               apiUrl
        else
          let apiUrl := productionApiUrl h in
          match apiUrl with
          | [] =>
              (setIsLoading false (setNetworkError (Some msgNotConfigured) st1),
               [])
          | _ :: _ =>
              send [ConsoleLog
                      [[63743; 252; 229; 234]%N ++ js " Using production API:";
                       apiUrl]]
                   apiUrl
          end
    end.

End Page.
End Earlier.

(** ** The editor: snippets, mode switch and saved code *)

(** The double quote. *)
Definition dq : N := 34%N.

Definition defaultScriptCode : jsstring :=
  join [nl]
    [js "import pandas as pd";
     [];
     js "# Script Mode - Direct execution without main() wrapper";
     js "print(" ++ dq :: js "Hello from Script Mode!" ++ dq :: js ")";
     js "data = {'name': ['Alice', 'Bob', 'Charlie'], 'score': [95, 87, 92]}";
     js "df = pd.DataFrame(data)";
     js "print(" ++ dq :: js "DataFrame:" ++ dq :: js ")";
     js "print(df)";
     js "print(f" ++ dq :: js "\nHighest score: {df['score'].max()}" ++ dq
       :: js ")"].

Definition defaultFunctionCode : jsstring :=
  join [nl]
    [js "import pandas as pd";
     [];
     js "# Function Mode - Code wrapped in main() function";
     js "print(" ++ dq :: js "Hello from Function Mode!" ++ dq :: js ")";
     js "data = {'col1': [1, 2, 3], 'col2': ['A', 'B', 'C']}";
     js "df = pd.DataFrame(data)";
     js "print(df.head())";
     [];
     js "# Return a JSON-serializable dictionary for the 'Result' section";
     js "return {" ++ dq :: js "data_shape" ++ dq :: js ": df.shape, " ++ dq
       :: js "columns" ++ dq :: js ": df.columns.tolist()}"].

(** The three state cells of [EditorPage] that the editor handlers and
    the saved-code effect read and write. *)
Record EditorState : Type := {
  es_userCode : jsstring;
  es_executionMode : ExecutionMode;
  es_hasUserEdited : bool
}.

(** The initial values of the three [useState] cells. *)
Definition initialEditorState : EditorState :=
  {| es_userCode := defaultFunctionCode; es_executionMode := function;
     es_hasUserEdited := false |}.

Definition handleModeChange (newMode : ExecutionMode) (st : EditorState)
  : EditorState :=
  {| es_userCode :=
       if es_hasUserEdited st then es_userCode st
       else match newMode with
            | script => defaultScriptCode
            | function => defaultFunctionCode
            end;
     es_executionMode := newMode;
     es_hasUserEdited := es_hasUserEdited st |}.

(** [value] is [None] when the editor hands over [undefined]. *)
Definition handleCodeChange (value : option jsstring) (st : EditorState)
  : EditorState :=
  let code := match value with Some v => orElse v [] | None => [] end in
  {| es_userCode := code;
     es_executionMode := es_executionMode st;
     es_hasUserEdited :=
       if negb (es_hasUserEdited st)
          && negb (jsstring_eqb code defaultFunctionCode)
          && negb (jsstring_eqb code defaultScriptCode)
       then true else es_hasUserEdited st |}.

(** The two keys of [localStorage] the page uses, [python-sandbox-code]
    and [python-sandbox-mode]; [None] is a key that is not there. *)
Record Storage : Type := {
  savedCode : option jsstring;
  savedMode : option jsstring
}.

Definition modeName (m : ExecutionMode) : jsstring :=
  match m with
  | script => js "script"
  | function => js "function"
  end.

(** [saveCode]: both keys are written (the console message that follows
    is left out). *)
Definition saveCode (st : EditorState) : Storage :=
  {| savedCode := Some (es_userCode st);
     savedMode := Some (modeName (es_executionMode st)) |}.

(** The effect that runs when the page is mounted: a saved code that is
    not empty replaces the code and marks it as edited; a saved mode is
    taken when it is one of the two mode names. *)
Definition loadSaved (store : Storage) (st : EditorState) : EditorState :=
  let st1 :=
    match savedCode store with
    | Some ((_ :: _) as code) =>
        {| es_userCode := code; es_executionMode := es_executionMode st;
           es_hasUserEdited := true |}
    | _ => st
    end in
  match savedMode store with
  | Some m =>
      if jsstring_eqb m (js "script") then
        {| es_userCode := es_userCode st1; es_executionMode := script;
           es_hasUserEdited := es_hasUserEdited st1 |}
      else if jsstring_eqb m (js "function") then
        {| es_userCode := es_userCode st1; es_executionMode := function;
           es_hasUserEdited := es_hasUserEdited st1 |}
      else st1
  | None => st1
  end.

(** What can happen to the three cells. *)
Inductive editorEvent : Type :=
| ModeChange (newMode : ExecutionMode)
| CodeChange (value : option jsstring)
| LoadSaved (store : Storage).

Definition editorStep (st : EditorState) (e : editorEvent) : EditorState :=
  match e with
  | ModeChange m => handleModeChange m st
  | CodeChange v => handleCodeChange v st
  | LoadSaved s => loadSaved s st
  end.

(** ** Regular expressions with alternation, repetition and a group

    The patterns of [analyzeTimeComplexity] need more than literals and
    word boundaries.  The matcher follows the backtracking order of
    ECMAScript: alternatives left to right, repetition greedy, and an
    iteration of a repetition that consumes nothing is not taken. *)

Inductive regex : Type :=
| REmpty
| RChar (p : N -> bool)
| RBoundary
| REndOfLine
| RSeq (r1 r2 : regex)
| RAlt (r1 r2 : regex)
| RStar (r : regex)
| RGroup (r : regex).

(** The matcher's position: the code unit before it, the text from it
    on, and what group 1 has captured. *)
Record mstate : Type := {
  ms_prev : option N;
  ms_rest : jsstring;
  ms_group : option jsstring
}.

(** [LineTerminator] of ECMAScript. *)
Definition isLineTerminator (c : N) : bool :=
  existsb (N.eqb c) [10; 13; 8232; 8233]%N.

Fixpoint rmatch (r : regex) (st : mstate) (k : mstate -> option mstate)
  {struct r} : option mstate :=
  match r with
  | REmpty => k st
  | RChar p =>
      match ms_rest st with
      | c :: s' =>
          if p c then k {| ms_prev := Some c; ms_rest := s';
                           ms_group := ms_group st |}
          else None
      | [] => None
      end
  | RBoundary =>
      if xorb (isWordOpt (ms_prev st)) (isWordOpt (hd_error (ms_rest st)))
      then k st else None
  | REndOfLine =>
      match ms_rest st with
      | [] => k st
      | c :: _ => if isLineTerminator c then k st else None
      end
  | RSeq r1 r2 => rmatch r1 st (fun st' => rmatch r2 st' k)
  | RAlt r1 r2 =>
      match rmatch r1 st k with
      | Some m => Some m
      | None => rmatch r2 st k
      end
  | RStar r1 =>
      (fix star (fuel : nat) (st : mstate) {struct fuel} : option mstate :=
         match fuel with
         | 0 => k st
         | S fuel' =>
             match rmatch r1 st
                     (fun st' =>
                        if length (ms_rest st') <? length (ms_rest st)
                        then star fuel' st' else None) with
             | Some m => Some m
             | None => k st
             end
         end) (S (length (ms_rest st))) st
  | RGroup r1 =>
      rmatch r1 st
        (fun st' =>
           k {| ms_prev := ms_prev st'; ms_rest := ms_rest st';
                ms_group :=
                  Some (firstn (length (ms_rest st) - length (ms_rest st'))
                          (ms_rest st)) |})
  end.

(** The first match, trying the start positions from left to right. *)
Fixpoint rsearch (r : regex) (prev : option N) (s : jsstring) : option mstate :=
  match rmatch r {| ms_prev := prev; ms_rest := s; ms_group := None |} Some with
  | Some m => Some m
  | None =>
      match s with
      | [] => None
      | c :: s' => rsearch r (Some c) s'
      end
  end.

(** [re.test(s)]. *)
Definition regexpTest (r : regex) (s : jsstring) : bool :=
  match rsearch r None s with Some _ => true | None => false end.

(** [s.match(re)[1]] for a pattern with one group and without the [g]
    flag; [None] when the pattern does not match. *)
Definition matchGroup1 (r : regex) (s : jsstring) : option jsstring :=
  match rsearch r None s with
  | Some m => Some match ms_group m with Some g => g | None => [] end
  | None => None
  end.

Definition RPlus (r : regex) : regex := RSeq r (RStar r).

(** A literal text; under the [i] flag an ASCII letter stands for both of
    its cases (no other code unit folds to an ASCII letter without the
    [u] flag). *)
Definition isAsciiLower (c : N) : bool := ((97 <=? c) && (c <=? 122))%N.
Definition isAsciiUpper (c : N) : bool := ((65 <=? c) && (c <=? 90))%N.

Definition litChar (ignoreCase : bool) (c : N) : regex :=
  RChar (fun x =>
           N.eqb x c
           || (ignoreCase
               && ((isAsciiLower c && N.eqb x (c - 32)%N)
                   || (isAsciiUpper c && N.eqb x (c + 32)%N)))).

Fixpoint RLit (ignoreCase : bool) (s : jsstring) : regex :=
  match s with
  | [] => REmpty
  | c :: s' => RSeq (litChar ignoreCase c) (RLit ignoreCase s')
  end.

(** [.], [\s] and [\w]. *)
Definition RDot : regex := RChar (fun c => negb (isLineTerminator c)).
Definition RSpace : regex := RChar isWhiteSpace.
Definition RWord : regex := RChar isWordChar.

(** [/\b(sort|sorted|heapq|bisect)\b/i]. *)
Definition sortingRegex : regex :=
  RSeq RBoundary
    (RSeq (RAlt (RLit true (js "sort"))
             (RAlt (RLit true (js "sorted"))
                (RAlt (RLit true (js "heapq")) (RLit true (js "bisect")))))
       RBoundary).

(** [/\b(binary.*search|linear.*search|find|index)\b/i]. *)
Definition searchingRegex : regex :=
  RSeq RBoundary
    (RSeq (RAlt (RSeq (RLit true (js "binary"))
                   (RSeq (RStar RDot) (RLit true (js "search"))))
             (RAlt (RSeq (RLit true (js "linear"))
                      (RSeq (RStar RDot) (RLit true (js "search"))))
                (RAlt (RLit true (js "find")) (RLit true (js "index")))))
       RBoundary).

(** [/\bdef\s+\w+.*:\s*$/m]. *)
Definition recursionRegex : regex :=
  RSeq RBoundary
    (RSeq (RLit false (js "def"))
       (RSeq (RPlus RSpace)
          (RSeq (RPlus RWord)
             (RSeq (RStar RDot)
                (RSeq (RLit false (js ":"))
                   (RSeq (RStar RSpace) REndOfLine)))))).

(** [/def\s+(\w+)/]. *)
Definition defNameRegex : regex :=
  RSeq (RLit false (js "def")) (RSeq (RPlus RSpace) (RGroup (RPlus RWord))).

(** A pattern of literals and word boundaries, as a [regex]. *)
Fixpoint ofAtoms (pat : list atom) : regex :=
  match pat with
  | [] => REmpty
  | WordBoundary :: p => RSeq RBoundary (ofAtoms p)
  | Lit c :: p => RSeq (RChar (fun x => N.eqb x c)) (ofAtoms p)
  end.

(** ** The complexity estimate *)

(** The variables of the loop of [analyzeTimeComplexity]. *)
Record scan : Type := {
  maxNesting : nat;
  currentNesting : nat;
  hasRecursion : bool;
  hasSorting : bool;
  hasSearching : bool
}.

Definition scanStart : scan :=
  {| maxNesting := 0; currentNesting := 0; hasRecursion := false;
     hasSorting := false; hasSearching := false |}.

Definition isLoopLine (line : jsstring) : bool :=
  includes line (js "for ") || includes line (js "while ").

(** One turn of the loop, for one line of [code]. *)
Definition scanLine (code : jsstring) (s : scan) (line : jsstring) : scan :=
  let s1 :=
    if isLoopLine line then
      {| maxNesting := Nat.max (maxNesting s) (S (currentNesting s));
         currentNesting := S (currentNesting s);
         hasRecursion := hasRecursion s; hasSorting := hasSorting s;
         hasSearching := hasSearching s |}
    else s in
  if match trim line with [] => true | _ :: _ => false end
     || includes line (js "#")
  then s1
  else
    {| maxNesting := maxNesting s1;
       currentNesting := currentNesting s1;
       hasRecursion :=
         if regexpTest recursionRegex code then
           match matchGroup1 defNameRegex line with
           | Some funcName =>
               if includes code (funcName ++ js "(") then true
               else hasRecursion s1
           | None => hasRecursion s1
           end
         else hasRecursion s1;
       hasSorting :=
         if regexpTest sortingRegex line then true else hasSorting s1;
       hasSearching :=
         if regexpTest searchingRegex line then true else hasSearching s1 |}.

(** [code.split('\n').map(line => line.trim()).filter(line =>
    line.length > 0)]. *)
Definition codeLines (code : jsstring) : list jsstring :=
  filter (fun line => 0 <? length line) (map trim (split nl code)).

(** The [switch] on the nesting at the end of [analyzeTimeComplexity]. *)
Definition complexityOfNesting (n : nat) : jsstring :=
  match n with
  | 0 => js "O(1)"
  | 1 => js "O(n)"
  | 2 => js "O(n" ++ [178%N] ++ js ")"
  | 3 => js "O(n" ++ [179%N] ++ js ")"
  | _ => js "O(n^k)"
  end.

Definition analyzeTimeComplexity (code : jsstring) : jsstring :=
  let s := fold_left (scanLine code) (codeLines code) scanStart in
  if hasRecursion s then js "O(?)"
  else if hasSorting s then js "O(n log n)"
  else if hasSearching s && (2 <=? maxNesting s) then js "O(log n)"
  else complexityOfNesting (maxNesting s).

(** ** Sample values

    Closed inputs used to exercise the statements below.  Numbers are
    natural numbers printed in decimal, which is how JavaScript prints
    the integers concerned. *)

Definition natIsTruthy (n : nat) : bool := negb (Nat.eqb n 0).

#[export] Instance natNumber : Number nat :=
  {| numberToString := natToString; numberIsTruthy := natIsTruthy |}.

(** The text V8 prints for a built-in function; the [constructor] of a
    plain object is the function [Object]. *)
#[export] Instance sampleBuiltins : Builtins :=
  {| nativeFunctionToString := fun k =>
       js "function "
       ++ (if jsstring_eqb k (js "constructor") then js "Object" else k)
       ++ js "() { [native code] }" |}.





(** A frame with the columns [a], [b] and [constructor], one row that
    has only [a], and an empty index. *)
Definition raggedFrameResult : DataFrameResult nat :=
  {| df_data := [[(js "a", JNum 1)]];
     df_columns := [js "a"; js "b"; js "constructor"];
     df_index := [];
     df_shape := (1, 3);
     df_dtypes := [] |}.

(** A response with two matplotlib figures and nothing else; the second
    carries the figure number zero. *)
Definition figuresResponse : ApiResponse nat :=
  {| stdout := []; result := None; error := None;
     visualizations :=
       Some [{| viz_type := js "matplotlib"; viz_format := js "png";
                viz_data := js "data:image/png;base64,AAAA";
                viz_figure_number := None |};
             {| viz_type := js "matplotlib"; viz_format := js "png";
                viz_data := js "data:image/png;base64,BBBB";
                viz_figure_number := Some 0 |}] |}.

(** A response with nothing in it. *)
Definition silentResponse : ApiResponse nat :=
  {| stdout := []; result := None; error := None; visualizations := None |}.

(** Two loops, one after the other. *)
Definition twoLoops : jsstring :=
  join [nl] [js "for i in a:"; js "    print(i)"; js "for j in b:";
             js "    print(j)"].

(** A function that does not call itself. *)
Definition plainFunction : jsstring :=
  join [nl] [js "def double(x):"; js "    return 2 * x"].

(** [{ "_type": "mystery", "a": 1 }]. *)
Definition mysteryResult : JsonValue nat :=
  JObj [(js "_type", JStr (js "mystery")); (js "a", JNum 1)].

(** The stub response: an empty [stdout] and the result [{ "a": 1 }]. *)
Definition stubResponse : ApiResponse nat :=
  {| stdout := []; result := Some (JObj [(js "a", JNum 1)]);
     error := None; visualizations := None |}.



(** A production host without the environment variable. *)
Definition unconfiguredHost : Host :=
  {| hostname := Some (js "sandbox.example.com");
     NEXT_PUBLIC_FLASK_API_URL := None |}.

Definition localHost : Host :=
  {| hostname := Some (js "localhost"); NEXT_PUBLIC_FLASK_API_URL := None |}.

Definition idleState (code : jsstring) : PageState nat :=
  {| userCode := code; executionMode := script; apiResponse := None;
     isLoading := false; abortController := None |}.

Definition earlierIdleState (code : jsstring) : Earlier.PageState unit :=
  {| Earlier.userCode := code; Earlier.executionMode := script;
     Earlier.apiResponse := None; Earlier.isLoading := false;
     Earlier.networkError := None; Earlier.abortController := None |}.

(** ** Vocabulary of the statements *)

(** The code unit before the position that follows [pre], when the text
    before [pre] ends in [prev]. *)
Definition lastOr (prev : option N) (pre : jsstring) : option N :=
  last (map Some pre) prev.

(** [s] contains the word [return] with a word boundary on both sides;
    [prev] is the code unit before [s], if any. *)
Definition TokenFrom (prev : option N) (s : jsstring) : Prop :=
  exists pre post,
    s = pre ++ kwReturn ++ post
    /\ isWordOpt (lastOr prev pre) = false
    /\ isWordOpt (hd_error post) = false.

Definition HasReturnToken (s : jsstring) : Prop := TokenFrom None s.

(** Every occurrence of [return] in [s] touches a word character on one
    side at least: it lies inside a longer identifier. *)
Definition ReturnOnlyInsideIdentifiers (s : jsstring) : Prop :=
  forall pre post,
    s = pre ++ kwReturn ++ post ->
    isWordOpt (lastOr None pre) = true \/ isWordOpt (hd_error post) = true.

(** A code unit that can stand inside a Python identifier: a word
    character of the regular expression, or one of the letters of the
    Latin-1 block (U+00C0 to U+00FF without the two signs U+00D7 and
    U+00F7).  Python admits letters of further scripts too; these are
    enough to tell the two readings apart. *)
Definition isIdentifierChar (c : N) : bool :=
  isWordChar c
  || ((192 <=? c) && (c <=? 214) || (216 <=? c) && (c <=? 246)
      || (248 <=? c) && (c <=? 255))%N.

Definition isIdentifierOpt (o : option N) : bool :=
  match o with
  | Some c => isIdentifierChar c
  | None => false
  end.

(** Every occurrence of [return] in [s] touches a character of a Python
    identifier on one side at least. *)
Definition ReturnOnlyInsidePythonIdentifiers (s : jsstring) : Prop :=
  forall pre post,
    s = pre ++ kwReturn ++ post ->
    isIdentifierOpt (lastOr None pre) = true
    \/ isIdentifierOpt (hd_error post) = true.

(** A decision procedure for the predicate above: visit every position
    and look at both neighbours of an occurrence. *)
Fixpoint occurrencesInside (prev : option N) (s : jsstring) : bool :=
  match s with
  | [] => true
  | c :: s' =>
      (if startsWith kwReturn s
       then isIdentifierOpt prev
            || isIdentifierOpt (nth_error s (length kwReturn))
       else true)
      && occurrencesInside (Some c) s'
  end.

(** The reading of the wrapping in which line numbers shift by one: the output has one line more than
    the raw code, every raw line sits one line further down with one
    level of indentation before it, and nothing follows the last of
    them. *)
Definition WrapKeepsLines (rawCode : jsstring) : Prop :=
  let out := prepareCodeForExecution rawCode function in
  length (split nl out) = length (split nl rawCode) + 1
  /\ (forall i line,
        nth_error (split nl rawCode) i = Some line ->
        nth_error (split nl out) (S i) = Some (indent line))
  /\ out = mainHeader ++ nl :: join [nl] (map indent (split nl rawCode)).

(** The code units of a text that are not white space, in order. *)
Definition visible (s : jsstring) : jsstring :=
  filter (fun c => negb (isWhiteSpace c)) s.

(** Every code unit of the text is white space. *)
Definition Blank (s : jsstring) : Prop :=
  Forall (fun c => isWhiteSpace c = true) s.


(** The result of the response, when there is one, can be rendered: it
    is [null], or carries no recognized [_type], or is a tagged payload
    of the shape its interface declares. *)
Definition ResultRenders (number : Type) {numberOps : Number number}
  {builtins : Builtins} (r : ApiResponse number) : Prop :=
  match result r with
  | Some v => renderResult v <> None
  | None => True
  end.

(** The response has nothing the output column shows: no error text, no
    output, no visualization and no result. *)
Definition NothingToShow (number : Type) (r : ApiResponse number) : Prop :=
  truthy (error r) = false /\ stdout r = []
  /\ hasVisualizations r = false /\ hasResult r = false.

(** The states of the three editor cells after a run of events, from the
    initial values. *)
Definition editorRun (events : list editorEvent) : EditorState :=
  fold_left editorStep events initialEditorState.

(** The [_type] discriminator of a result: only an object can carry one. *)
Definition discriminator (number : Type) (v : JsonValue number)
  : option (JsonValue number) :=
  match v with
  | JObj o => lookup (js "_type") o
  | _ => None
  end.

Definition recognizedTypes : list jsstring :=
  [js "dataframe"; js "series"; js "image"; js "unserializable"].

(** The result has no discriminator, or one that [renderResult] has no
    case for. *)
Definition Unrecognized (number : Type) (v : JsonValue number) : Prop :=
  match discriminator v with
  | Some (JStr t) => ~ In t recognizedTypes
  | _ => True
  end.

Definition isFetch (e : effect) : bool :=
  match e with
  | Fetch _ _ => true
  | _ => false
  end.

(** The submission goes ahead: it is not a cancellation of a running
    request, and there is code to send. *)
Definition Proceeds (number : Type) (st : PageState number) : Prop :=
  (isLoading st && isSome (abortController st)) = false
  /\ trim (userCode st) <> [].

(** * Properties *)

(** ** Character classes *)

Lemma whiteSpace_not_word (c : N) :
  isWhiteSpace c = true -> isWordChar c = false.
Proof.
  unfold isWhiteSpace, isWordChar; cbn [existsb].
  rewrite !orb_true_iff, andb_true_iff, !N.eqb_eq, !N.leb_le.
  intros H.
  rewrite !orb_false_iff, !andb_false_iff, N.eqb_neq, !N.leb_gt.
  lia.
Qed.

Lemma kwReturn_word (c : N) : In c kwReturn -> isWordChar c = true.
Proof.
  cbn; intros H; repeat destruct H as [<- | H]; try reflexivity; contradiction.
Qed.

(** ** The [return] token *)

Lemma last_cons (A : Type) (a d : A) (l : list A) :
  last (a :: l) d = last l a.
Proof.
  revert a d; induction l as [|b l IH]; intros a d; [reflexivity|].
  change (last (a :: b :: l) d) with (last (b :: l) d).
  now rewrite !IH.
Qed.

Lemma lastOr_cons (prev : option N) (c : N) (pre : jsstring) :
  lastOr prev (c :: pre) = lastOr (Some c) pre.
Proof. unfold lastOr; cbn [map]; apply last_cons. Qed.

Lemma lastOr_app (prev : option N) (a b : jsstring) :
  lastOr prev (a ++ b) = lastOr (lastOr prev a) b.
Proof.
  revert prev; induction a as [|c a IH]; intros prev; [reflexivity|].
  cbn [app]. rewrite !lastOr_cons. apply IH.
Qed.

(** A run of literals matches exactly when the text starts with them. *)
Lemma matchAt_lits (lit : jsstring) (rest : list atom) (prev : option N)
  (s : jsstring) :
  matchAt (map Lit lit ++ rest) prev s = true <->
  exists post, s = lit ++ post /\ matchAt rest (lastOr prev lit) post = true.
Proof.
  revert prev s; induction lit as [|c lit IH]; intros prev s.
  - cbn [map app]. split.
    + intros H; exists s; auto.
    + intros (post & -> & H); exact H.
  - cbn [map app matchAt]. destruct s as [|x s].
    + split; [discriminate|]. intros (post & E & _); discriminate.
    + rewrite andb_true_iff, N.eqb_eq, IH. split.
      * intros (-> & post & -> & H). exists post. rewrite lastOr_cons. auto.
      * intros (post & E & H). injection E as -> ->.
        rewrite lastOr_cons in H. eauto.
Qed.

Lemma matchAt_return (prev : option N) (s : jsstring) :
  matchAt returnRegex prev s = true <->
  isWordOpt prev = false
  /\ exists post, s = kwReturn ++ post /\ isWordOpt (hd_error post) = false.
Proof.
  unfold returnRegex. cbn [matchAt].
  rewrite andb_true_iff, matchAt_lits. split.
  - intros (Hb & post & -> & Ha). cbn in Hb. cbn in Ha.
    rewrite andb_true_r in Ha.
    split; [now destruct (isWordOpt prev)|].
    exists post; split; [reflexivity|]. now destruct (isWordOpt (hd_error post)).
  - intros (Hp & post & -> & Ha). split.
    + cbn. now rewrite Hp.
    + exists post; split; [reflexivity|]. cbn. now rewrite Ha.
Qed.

Lemma searchFrom_return (prev : option N) (s : jsstring) :
  searchFrom returnRegex prev s = true <-> TokenFrom prev s.
Proof.
  revert prev; induction s as [|x s IH]; intros prev.
  - cbn [searchFrom]. rewrite orb_false_r, matchAt_return. split.
    + intros (_ & post & E & _). destruct post; discriminate.
    + intros (pre & post & E & _). destruct pre; discriminate.
  - cbn [searchFrom]. rewrite orb_true_iff, matchAt_return, IH. split.
    + intros [(Hp & post & E & Ha) | (pre & post & E & Hp & Ha)].
      * exists [], post. auto.
      * exists (x :: pre), post. rewrite lastOr_cons. rewrite E. auto.
    + intros (pre & post & E & Hp & Ha). destruct pre as [|y pre].
      * left. split; [exact Hp|]. exists post. auto.
      * right. injection E as -> ->. rewrite lastOr_cons in Hp.
        exists pre, post. auto.
Qed.

(** The scan of [prepareCodeForExecution] decides [HasReturnToken]. *)
Lemma regexTest_return (s : jsstring) :
  regexTest returnRegex s = true <-> HasReturnToken s.
Proof. apply searchFrom_return. Qed.

Lemma TokenFrom_prev (p q : option N) (s : jsstring) :
  isWordOpt p = isWordOpt q -> TokenFrom p s -> TokenFrom q s.
Proof.
  intros E (pre & post & -> & Hp & Ha). exists pre, post.
  split; [reflexivity|]. split; [|exact Ha].
  destruct pre as [|c pre]; [cbn in *; congruence|].
  now rewrite lastOr_cons in *.
Qed.

Lemma TokenFrom_cons_nonword (prev : option N) (w : N) (s : jsstring) :
  isWordChar w = false -> (TokenFrom prev (w :: s) <-> TokenFrom None s).
Proof.
  intros Hw. split.
  - intros (pre & post & E & Hp & Ha). destruct pre as [|c pre].
    + injection E as ->. discriminate.
    + injection E as -> ->. rewrite lastOr_cons in Hp.
      apply TokenFrom_prev with (p := Some c); [exact Hw|].
      exists pre, post. auto.
  - intros H. apply TokenFrom_prev with (q := Some w) in H; [|cbn; now rewrite Hw].
    destruct H as (pre & post & -> & Hp & Ha).
    exists (w :: pre), post. rewrite lastOr_cons. auto.
Qed.

Lemma TokenFrom_snoc_nonword (prev : option N) (w : N) (s : jsstring) :
  isWordChar w = false -> (TokenFrom prev (s ++ [w]) <-> TokenFrom prev s).
Proof.
  intros Hw. split.
  - intros (pre & post & E & Hp & Ha).
    destruct post as [|z post _] using rev_ind.
    + change (pre ++ kwReturn ++ []) with (pre ++ js "retur" ++ [110%N]) in E.
      rewrite app_assoc in E. apply app_inj_tail in E as [_ ->]. discriminate.
    + rewrite !app_assoc in E. apply app_inj_tail in E as [-> ->].
      exists pre, post. rewrite app_assoc. split; [reflexivity|].
      split; [exact Hp|]. destruct post; [reflexivity | exact Ha].
  - intros (pre & post & -> & Hp & Ha). exists pre, (post ++ [w]).
    rewrite <- !app_assoc. split; [reflexivity|]. split; [exact Hp|].
    destruct post; [exact Hw | exact Ha].
Qed.

Lemma TokenFrom_trimStart (s : jsstring) :
  TokenFrom None (trimStart s) <-> TokenFrom None s.
Proof.
  unfold trimStart. induction s as [|c s IH]; [reflexivity|].
  cbn [dropWhile]. destruct (isWhiteSpace c) eqn:W; [|reflexivity].
  rewrite IH. symmetry. apply TokenFrom_cons_nonword.
  now apply whiteSpace_not_word.
Qed.

Lemma TokenFrom_trimEnd (prev : option N) (s : jsstring) :
  TokenFrom prev (trimEnd s) <-> TokenFrom prev s.
Proof.
  unfold trimEnd. rewrite <- (rev_involutive s) at 2.
  induction (rev s) as [|c r IH]; [reflexivity|].
  cbn [dropWhile rev]. destruct (isWhiteSpace c) eqn:W; [|reflexivity].
  rewrite IH. symmetry. apply TokenFrom_snoc_nonword.
  now apply whiteSpace_not_word.
Qed.

(** Trimming neither adds nor removes a [return] token, so the scan of the
    trimmed text is a scan of the raw text. *)
Lemma HasReturnToken_trim (s : jsstring) :
  HasReturnToken (trim s) <-> HasReturnToken s.
Proof.
  unfold HasReturnToken, trim.
  now rewrite TokenFrom_trimEnd, TokenFrom_trimStart.
Qed.

Lemma regexTest_trim (s : jsstring) :
  regexTest returnRegex (trim s) = regexTest returnRegex s.
Proof.
  apply eq_true_iff_eq.
  now rewrite !regexTest_return, HasReturnToken_trim.
Qed.

Lemma prepare_script_without_token (rawCode : jsstring) :
  ~ HasReturnToken rawCode ->
  regexTest returnRegex (trim rawCode) = false
  /\ prepareCodeForExecution rawCode script = rawCode.
Proof.
  intros H. unfold prepareCodeForExecution.
  destruct (regexTest returnRegex (trim rawCode)) eqn:E; [|auto].
  rewrite regexTest_trim in E. apply regexTest_return in E. contradiction.
Qed.

Lemma prepare_script_with_token (rawCode : jsstring) :
  HasReturnToken rawCode ->
  prepareCodeForExecution rawCode script
  = prepareCodeForExecution rawCode function.
Proof.
  intros H. unfold prepareCodeForExecution.
  apply HasReturnToken_trim, regexTest_return in H. now rewrite H.
Qed.

Lemma ReturnOnlyInsideIdentifiers_iff (s : jsstring) :
  ReturnOnlyInsideIdentifiers s <-> regexTest returnRegex s = false.
Proof.
  rewrite <- not_true_iff_false, regexTest_return. split.
  - intros H (pre & post & E & Hp & Ha).
    destruct (H pre post E); congruence.
  - intros H pre post E.
    destruct (isWordOpt (lastOr None pre)) eqn:Hp; [now left|].
    destruct (isWordOpt (hd_error post)) eqn:Ha; [now right|].
    exfalso. apply H. exists pre, post. auto.
Qed.

(** ** Splitting and joining lines *)

Lemma split_nonempty (sep : N) (s : jsstring) : split sep s <> [].
Proof.
  destruct s as [|c s]; cbn; [discriminate|].
  destruct (N.eqb c sep); [discriminate|]. destruct (split sep s); discriminate.
Qed.

Lemma split_app_sep (sep : N) (a b : jsstring) :
  split sep (a ++ sep :: b) = split sep a ++ split sep b.
Proof.
  induction a as [|c a IH]; cbn [app split].
  - now rewrite N.eqb_refl.
  - destruct (N.eqb c sep); [now rewrite IH|].
    rewrite IH. destruct (split sep a) eqn:E; [|reflexivity].
    now apply split_nonempty in E.
Qed.

Lemma split_no_sep (sep : N) (a : jsstring) :
  ~ In sep a -> split sep a = [a].
Proof.
  induction a as [|c a IH]; intros H; [reflexivity|].
  cbn [split]. destruct (N.eqb_spec c sep) as [->|_].
  - exfalso; apply H; now left.
  - rewrite IH; [reflexivity|]. intros Hin; apply H; now right.
Qed.

Lemma split_segments (sep : N) (s : jsstring) :
  Forall (fun l => ~ In sep l) (split sep s).
Proof.
  induction s as [|c s IH]; cbn [split].
  - constructor; [intros []|constructor].
  - destruct (N.eqb_spec c sep) as [->|Hc].
    + constructor; [intros []|exact IH].
    + destruct (split sep s) as [|l ls].
      * constructor; [|constructor]. intros [E|[]]; now apply Hc.
      * inversion IH as [|? ? Hl Hls]; subst. constructor; [|exact Hls].
        intros [E|Hin]; [now apply Hc | now apply Hl].
Qed.

Lemma join_split (sep : N) (s : jsstring) : join [sep] (split sep s) = s.
Proof.
  induction s as [|c s IH]; [reflexivity|].
  cbn [split]. destruct (N.eqb_spec c sep) as [->|_].
  - destruct (split sep s) as [|l ls] eqn:E; [now apply split_nonempty in E|].
    rewrite <- IH. reflexivity.
  - destruct (split sep s) as [|l ls] eqn:E; [now apply split_nonempty in E|].
    rewrite <- IH. destruct ls; reflexivity.
Qed.

Lemma split_join (sep : N) (ls : list jsstring) :
  ls <> [] -> Forall (fun l => ~ In sep l) ls ->
  split sep (join [sep] ls) = ls.
Proof.
  induction ls as [|l ls IH]; intros Hne H; [contradiction|].
  inversion H as [|? ? Hl Hls]; subst. destruct ls as [|l2 ls].
  - cbn [join]. now apply split_no_sep.
  - change (join [sep] (l :: l2 :: ls)) with (l ++ sep :: join [sep] (l2 :: ls)).
    rewrite split_app_sep, split_no_sep by exact Hl.
    rewrite IH; [reflexivity | discriminate | exact Hls].
Qed.

Lemma indent_no_nl (line : jsstring) : ~ In nl line -> ~ In nl (indent line).
Proof.
  intros H Hin. unfold indent in Hin. apply in_app_or in Hin as [Hin|Hin].
  - cbn in Hin. repeat destruct Hin as [Hin|Hin]; try discriminate; contradiction.
  - contradiction.
Qed.

Lemma mainHeader_no_nl : ~ In nl mainHeader.
Proof.
  cbn. intros H. repeat destruct H as [H|H]; try discriminate; contradiction.
Qed.

(** The lines of a wrapped program: the header, the indented lines of the
    trimmed text, and the empty segment after the final line feed. *)
Lemma wrap_lines (userCode : jsstring) :
  trim userCode <> [] ->
  split nl (wrapCodeInMainFunction userCode)
  = mainHeader :: map indent (split nl (trim userCode)) ++ [[]].
Proof.
  intros Hne. unfold wrapCodeInMainFunction.
  destruct (trim userCode) as [|c t] eqn:E; [contradiction|].
  rewrite split_app_sep, split_no_sep by exact mainHeader_no_nl.
  change [nl] with (nl :: []). rewrite split_app_sep.
  rewrite split_join.
  - reflexivity.
  - intros Hm. apply map_eq_nil in Hm. now apply split_nonempty in Hm.
  - apply Forall_map. eapply Forall_impl; [|apply split_segments].
    intros l Hl. now apply indent_no_nl.
Qed.

(** ** The code preparer *)

(** C1: in Script mode, [prepare] returns the raw code unchanged when it
    contains no [return] token, and when it contains one it returns
    exactly what Function mode returns for the same text.  The token is
    looked for in the raw text: trimming does not change the answer. *)
Theorem prepare_script_by_return_token (rawCode : jsstring) :
  (~ HasReturnToken rawCode ->
     prepareCodeForExecution rawCode script = rawCode)
  /\ (HasReturnToken rawCode ->
        prepareCodeForExecution rawCode script
        = prepareCodeForExecution rawCode function).
Proof.
  split.
  - intros H. now apply prepare_script_without_token.
  - apply prepare_script_with_token.
Qed.

(** Both cases of C1 occur: a script with a [return] statement is wrapped,
    one without is sent as it is. *)
Example prepare_script_examples :
  prepareCodeForExecution (js "return 1") script
  = js "def main():" ++ nl :: js "    return 1" ++ [nl]
  /\ prepareCodeForExecution (js "print(1)") script = js "print(1)".
Proof. split; reflexivity. Qed.

(** C2, counterexample: code that starts with two empty lines.  The raw
    text has three lines, the wrapped text is the header and one indented
    line followed by a line feed; the statement [x] moves from line 3 to
    line 2 instead of line 4, and each part of the claim fails. *)
Lemma wrap_changes_lines :
  let rawCode := nl :: nl :: js "x" in
  let out := prepareCodeForExecution rawCode function in
  rawCode <> []
  /\ out = js "def main():" ++ nl :: js "    x" ++ [nl]
  /\ length (split nl rawCode) = 3
  /\ length (split nl out) <> length (split nl rawCode) + 1
  /\ nth_error (split nl rawCode) 2 = Some (js "x")
  /\ nth_error (split nl out) 3 <> Some (indent (js "x"))
  /\ out <> mainHeader ++ nl :: join [nl] (map indent (split nl rawCode))
  /\ ~ WrapKeepsLines rawCode.
Proof.
  cbv zeta. repeat split; try reflexivity; try discriminate.
  intros (H & _). discriminate H.
Qed.

(** C2, amended: Function mode wraps the trimmed text.  When the trimmed
    text is not empty, the output is the header line, then every line of
    the trimmed text behind four spaces, then a final line feed: split at
    line feeds it has the lines of the trimmed text plus two (the header
    and the empty segment after the final line feed), and line [i] of the
    trimmed text is line [i + 1] of the output.  When the raw code has no
    white space to trim, these are the lines of the raw code itself. *)
Theorem prepare_function_lines (rawCode : jsstring) :
  trim rawCode <> [] ->
  let out := prepareCodeForExecution rawCode function in
  let lines := split nl (trim rawCode) in
  out = mainHeader ++ nl :: join [nl] (map indent lines) ++ [nl]
  /\ split nl out = mainHeader :: map indent lines ++ [[]]
  /\ length (split nl out) = length lines + 2
  /\ (forall i line,
        nth_error lines i = Some line ->
        nth_error (split nl out) (S i) = Some (js "    " ++ line))
  /\ (trim rawCode = rawCode ->
      forall i line,
        nth_error (split nl rawCode) i = Some line ->
        nth_error (split nl out) (S i) = Some (js "    " ++ line)).
Proof.
  intros Hne. cbv zeta. cbn [prepareCodeForExecution].
  pose proof (wrap_lines rawCode Hne) as Hl. rewrite Hl.
  assert (Hnth : forall i line,
             nth_error (split nl (trim rawCode)) i = Some line ->
             nth_error (mainHeader :: map indent (split nl (trim rawCode))
                        ++ [[]]) (S i)
             = Some (js "    " ++ line)).
  { intros i line Hi. cbn [nth_error].
    rewrite nth_error_app1.
    + rewrite nth_error_map, Hi. reflexivity.
    + rewrite length_map. apply nth_error_Some. congruence. }
  split; [|split; [reflexivity|split; [|split; [exact Hnth|]]]];
    [| |intros Ht i line Hi; apply Hnth; now rewrite Ht].
  - unfold wrapCodeInMainFunction. now destruct (trim rawCode).
  - cbn [length]. rewrite length_app, length_map. cbn [length]. lia.
Qed.

(** A script of two lines with blanks around it: the blanks go, the
    two lines are indented below the header. *)
Lemma prepare_function_lines_witness :
  let rawCode := js "  a = 1" ++ nl :: js "b = 2" ++ [nl] in
  trim rawCode <> []
  /\ prepareCodeForExecution rawCode function
     = js "def main():" ++ nl :: js "    a = 1" ++ nl :: js "    b = 2" ++ [nl].
Proof.
  cbv zeta. split; [discriminate|].
  pose proof (prepare_function_lines (js "  a = 1" ++ nl :: js "b = 2" ++ [nl]))
    as H.
  apply H. discriminate.
Defined.

(** C3, counterexample: in Script mode the empty string comes back as the
    empty string, and a blank string comes back as it is; neither is the
    no-op program. *)
Lemma prepare_script_blank_unchanged :
  prepareCodeForExecution [] script = []
  /\ prepareCodeForExecution [] script <> noopProgram
  /\ prepareCodeForExecution (js "  ") script = js "  ".
Proof. repeat split; try reflexivity; discriminate. Qed.

(** C3, amended: for the empty string and for every whitespace-only input
    Function mode returns the no-op program (never empty text), and Script
    mode returns the input unchanged. *)
Theorem prepare_blank (rawCode : jsstring) :
  trim rawCode = [] ->
  prepareCodeForExecution rawCode function = noopProgram
  /\ noopProgram = js "def main():" ++ nl :: js "    pass" ++ [nl]
  /\ prepareCodeForExecution rawCode script = rawCode.
Proof.
  intros H. unfold prepareCodeForExecution, wrapCodeInMainFunction.
  rewrite H. repeat split; reflexivity.
Qed.

(** A blank text of a space, a line feed and a tab. *)
Lemma prepare_blank_witness :
  trim (js " " ++ [nl; 9%N]) = []
  /\ prepareCodeForExecution (js " " ++ [nl; 9%N]) function = noopProgram
  /\ prepareCodeForExecution (js " " ++ [nl; 9%N]) script = js " " ++ [nl; 9%N].
Proof.
  split; [reflexivity|].
  pose proof (prepare_blank (js " " ++ [nl; 9%N]) eq_refl) as (H1 & _ & H2).
  split; assumption.
Defined.

(** C9, amended: the scan for [return] matches on the word boundaries
    of the regular expression only.  When every occurrence of [return]
    in the input has one of [A-Za-z0-9_] right before or right after it,
    the scan finds nothing and Script mode returns the input unchanged.
    Identifiers written with other letters are outside this statement. *)
Theorem prepare_script_return_inside_identifier (rawCode : jsstring) :
  ReturnOnlyInsideIdentifiers rawCode ->
  regexTest returnRegex (trim rawCode) = false
  /\ prepareCodeForExecution rawCode script = rawCode.
Proof.
  intros H. apply prepare_script_without_token.
  intros Ht. apply regexTest_return in Ht.
  apply ReturnOnlyInsideIdentifiers_iff in H. congruence.
Qed.

(** A script that names [returned], [return_value] and [my_return]. *)
Lemma prepare_script_return_inside_identifier_witness :
  let rawCode := js "returned = return_value + my_return" in
  ReturnOnlyInsideIdentifiers rawCode
  /\ prepareCodeForExecution rawCode script = rawCode.
Proof.
  cbv zeta.
  assert (H : ReturnOnlyInsideIdentifiers
                (js "returned = return_value + my_return"))
    by (apply ReturnOnlyInsideIdentifiers_iff; reflexivity).
  split; [exact H|].
  exact (proj2 (prepare_script_return_inside_identifier H)).
Defined.

Lemma startsWith_app (t post : jsstring) : startsWith t (t ++ post) = true.
Proof.
  induction t as [|a t IH]; [reflexivity|].
  cbn [startsWith app]. now rewrite N.eqb_refl, IH.
Qed.

Lemma occurrencesInside_sound (prev : option N) (s : jsstring) :
  occurrencesInside prev s = true ->
  forall pre post,
    s = pre ++ kwReturn ++ post ->
    isIdentifierOpt (lastOr prev pre) = true
    \/ isIdentifierOpt (hd_error post) = true.
Proof.
  revert prev. induction s as [|c s IH]; intros prev H pre post E.
  - destruct pre; discriminate E.
  - cbn [occurrencesInside] in H. apply andb_prop in H as [Hhere Hrest].
    destruct pre as [|d pre].
    + cbn [app] in E. rewrite E in Hhere.
      rewrite startsWith_app in Hhere.
      rewrite nth_error_app2 in Hhere by reflexivity.
      rewrite Nat.sub_diag in Hhere.
      apply orb_prop in Hhere as [Hp|Hq].
      * left. exact Hp.
      * right. destruct post; exact Hq.
    + cbn [app] in E. injection E as -> ->.
      rewrite lastOr_cons. now apply IH.
Qed.

(** C9, as the claim reads: a Python identifier may hold letters beyond
    ASCII, and the scan does not count them as word characters.  In the
    text made of the letter U+00E9 (e with an acute accent) and
    [return = 1], the only occurrence of [return] lies inside the
    identifier that starts with that letter, yet the scan finds a token,
    in front of which a word boundary stands, and Script mode wraps the
    input. *)
Lemma accented_identifier_is_wrapped :
  let rawCode := (233 :: js "return = 1")%N in
  ReturnOnlyInsidePythonIdentifiers rawCode
  /\ regexTest returnRegex (trim rawCode) = true
  /\ prepareCodeForExecution rawCode script
     = js "def main():" ++ [nl] ++ js "    " ++ rawCode ++ [nl]
  /\ prepareCodeForExecution rawCode script <> rawCode.
Proof.
  cbv zeta. split; [|split; [reflexivity|split; [reflexivity|discriminate]]].
  intros pre post E.
  apply (@occurrencesInside_sound None (233%N :: js "return = 1"));
    [reflexivity|exact E].
Qed.

(** ** Rendering the result *)

Lemma mapi_from_length (A B : Type) (f : A -> nat -> B) (k : nat) (l : list A) :
  length (mapi_from f k l) = length l.
Proof.
  revert k; induction l as [|x l IH]; intros k; cbn; [reflexivity|].
  now rewrite IH.
Qed.

Lemma mapi_from_nth (A B : Type) (f : A -> nat -> B) (k i : nat) (l : list A) :
  nth_error (mapi_from f k l) i
  = option_map (fun x => f x (k + i)) (nth_error l i).
Proof.
  revert k i; induction l as [|x l IH]; intros k i.
  - now destruct i.
  - destruct i as [|i]; cbn.
    + now rewrite Nat.add_0_r.
    + rewrite IH. now rewrite Nat.add_succ_r.
Qed.

Lemma mapi_length (A B : Type) (f : A -> nat -> B) (l : list A) :
  length (mapi f l) = length l.
Proof. apply mapi_from_length. Qed.

Lemma mapi_nth (A B : Type) (f : A -> nat -> B) (i : nat) (l : list A) (x : A) :
  nth_error l i = Some x -> nth_error (mapi f l) i = Some (f x i).
Proof. intros H. unfold mapi. now rewrite mapi_from_nth, H. Qed.

Lemma jsstring_eqb_eq (a b : jsstring) : jsstring_eqb a b = true <-> a = b.
Proof.
  unfold jsstring_eqb. destruct (list_eq_dec N.eq_dec a b); split;
    congruence.
Qed.

Section RenderingProperties.

Context {number : Type} {numberOps : Number number} {builtins : Builtins}.











Lemma renderResult_unrecognized (v : JsonValue number) :
  Unrecognized v -> renderResult v = Some (renderDefault v).
Proof.
  intros H. destruct v as [| | | |items|o]; try reflexivity.
  unfold Unrecognized, discriminator in H. unfold renderResult.
  destruct (lookup (js "_type") o) as [[| | |t| |]|]; try reflexivity.
  unfold recognizedTypes in H. cbn [In] in H.
  repeat match goal with
  | |- context [jsstring_eqb t ?k] =>
      let E := fresh "E" in
      destruct (jsstring_eqb t k) eqn:E;
      [apply jsstring_eqb_eq in E; exfalso; apply H; subst t; tauto|]
  end.
  reflexivity.
Qed.

(** C5: a result whose [_type] is none of the four the interpreter knows
    (for instance "mystery", or a [_type] that is not a string), and a
    result without [_type], are rendered by the default branch: one [pre]
    block with the pretty-printed JSON text of an object or array and the
    string form of any other value.  Rendering yields a tree (it does not
    fail), for the result alone and for a response that carries it. *)
Theorem unrecognized_result_renders_default (v : JsonValue number) :
  Unrecognized v ->
  renderResult v
  = Some (elem "pre"
            [Text (if typeofObject v then JSON_stringify v else toString v)])
  /\ (forall mode loading r,
        result r = Some v ->
        exists panels, renderApiResponse mode loading r = Some panels).
Proof.
  intros H. pose proof (renderResult_unrecognized v H) as Hr. split.
  - exact Hr.
  - intros mode loading r Hv.
    unfold renderApiResponse, resultPanel.
    rewrite Hv. destruct v; cbn [bind]; try rewrite Hr; cbn [bind]; eauto.
Qed.


(** With an empty [stdout] the guard in front of the stdout panel fails,
    so the panel, and with it the "No standard output." text inside it,
    is not rendered. *)
Lemma stdoutPanel_empty (r : ApiResponse number) :
  stdout r = [] -> stdoutPanel r = [].
Proof. unfold stdoutPanel. now intros ->. Qed.



(** A response without result, and a response whose result has no
    recognized tag, can be rendered. *)
Lemma ResultRenders_untagged (r : ApiResponse number) :
  match result r with
  | Some v => Unrecognized v
  | None => True
  end ->
  ResultRenders r.
Proof.
  unfold ResultRenders. destruct (result r) as [v|]; [|trivial].
  intros H. now rewrite (renderResult_unrecognized v H).
Qed.


End RenderingProperties.



(** A result tagged "mystery" is printed as JSON text. *)
Lemma unrecognized_result_renders_default_witness :
  Unrecognized mysteryResult
  /\ renderResult mysteryResult
     = Some (elem "pre"
               [Text (js "{" ++ nl :: js "  "
                      ++ quoteJSONString (js "_type") ++ js ": "
                      ++ quoteJSONString (js "mystery") ++ js "," ++ nl
                      :: js "  " ++ quoteJSONString (js "a") ++ js ": 1"
                      ++ nl :: js "}")]).
Proof.
  assert (H : Unrecognized mysteryResult).
  { cbn. intros [E|[E|[E|[E|[]]]]]; discriminate E. }
  split; [exact H|].
  exact (proj1 (@unrecognized_result_renders_default nat natNumber sampleBuiltins
                  mysteryResult H)).
Defined.



(** C7, the failing input: the stub response with an empty stdout and the
    result [{"a": 1}].  The output holds the result panel with the
    pretty-printed value and nothing else: no stdout panel, and so no
    "No standard output." text. *)
Theorem stub_response_without_stdout_panel :
  renderApiResponse function false stubResponse
  = Some [elem "div"
            [elem "h3"
               [Text ([55356; 57263]%N ++ js " Result ");
                Text (js "(from main()):")];
             elem "pre"
               [Text (js "{" ++ nl :: js "  " ++ quoteJSONString (js "a")
                      ++ js ": 1" ++ nl :: js "}")]]]
  /\ stdoutPanel stubResponse = []
  /\ (forall panels,
        renderApiResponse function false stubResponse
        = Some panels ->
        ~ In (js "No standard output.")
            (map textContent
               (List.concat (map (elementsByTag "span") panels)))).
Proof.
  split; [reflexivity|]. split; [reflexivity|].
  intros panels H. injection H as <-. cbn. tauto.
Qed.

(** ** The submission *)

Section SubmissionProperties.

Context {number : Type} {numberOps : Number number} {builtins : Builtins}.

(** On a local-development host the request goes to the fixed local
    endpoint, whatever the environment variable holds. *)
Lemma handleSubmit_local (h : Host) (st : PageState number) :
  Proceeds st -> isLocalDev h = true ->
  snd (handleSubmit h st)
  = [ConsoleLog [[55357; 56615]%N ++ js " Using local API:"; localApiUrl];
     Fetch localApiUrl
       (requestBody (prepareCodeForExecution (userCode st) (executionMode st)))].
Proof.
  intros [Hc Hcode] Hl. unfold handleSubmit. rewrite Hc.
  destruct (trim (userCode st)); [contradiction|]. now rewrite Hl.
Qed.

(** X25: on a host that is not a local-development host and has no
    configured base URL, a submission that goes ahead stops
    with the configuration message on the error console: no request is
    issued, and the page is back in its idle state without a response. *)
Lemma handleSubmit_unconfigured (h : Host) (st : PageState number) :
  Proceeds st -> isLocalDev h = false ->
  NEXT_PUBLIC_FLASK_API_URL h = None \/ NEXT_PUBLIC_FLASK_API_URL h = Some [] ->
  snd (handleSubmit h st) = [ConsoleError [msgNotConfigured]]
  /\ existsb isFetch (snd (handleSubmit h st)) = false
  /\ isLoading (fst (handleSubmit h st)) = false
  /\ apiResponse (fst (handleSubmit h st)) = None.
Proof.
  intros [Hc Hcode] Hl He. unfold handleSubmit. rewrite Hc.
  destruct (trim (userCode st)); [contradiction|]. rewrite Hl.
  destruct He as [-> | ->]; repeat split; reflexivity.
Qed.

(** What the [catch] clause reports for a network failure starts with
    its own message, which the configuration report does not carry: the
    two are told apart by their first line. *)
Lemma handleSubmit_settle_network (err : Thrown) (st : PageState number) :
  (thrown_isError err && jsstring_eqb (thrown_name err) (js "AbortError"))
  = false ->
  exists rest,
    snd (handleSubmit_settle (Failed err) st)
    = ConsoleError [msgNetwork; thrown_string err] :: rest
    /\ ConsoleError [msgNetwork; thrown_string err]
       <> ConsoleError [msgNotConfigured].
Proof.
  intros H. unfold handleSubmit_settle. rewrite H. cbn [snd].
  eexists. split; [reflexivity|]. discriminate.
Qed.

End SubmissionProperties.

(** The earlier revision appends [/execute] before it tests the URL, so
    the URL it tests is never empty: the configuration branch cannot be
    taken, and every submission that goes ahead issues a request. *)
Lemma earlier_productionApiUrl_nonempty (h : Host) :
  Earlier.productionApiUrl h <> [].
Proof.
  unfold Earlier.productionApiUrl.
  destruct (NEXT_PUBLIC_FLASK_API_URL h) as [u|]; [|discriminate].
  destruct u; discriminate.
Qed.

(** X26: in the earlier revision every submission that goes ahead sends
    a request, on any host and whatever the environment variable holds:
    the test for a missing base URL can never succeed. *)
Lemma earlier_handleSubmit_always_fetches (R : Type) (h : Host)
  (st : Earlier.PageState R) :
  (Earlier.isLoading st
   && match Earlier.abortController st with Some _ => true | None => false end)
  = false ->
  trim (Earlier.userCode st) <> [] ->
  existsb isFetch (snd (Earlier.handleSubmit h st)) = true.
Proof.
  intros Hc Hcode. unfold Earlier.handleSubmit. rewrite Hc.
  destruct (trim (Earlier.userCode st)); [contradiction|].
  destruct (isLocalDev h); [reflexivity|].
  pose proof (earlier_productionApiUrl_nonempty h) as Hu.
  destruct (Earlier.productionApiUrl h); [contradiction|].
  cbn [snd]. rewrite existsb_app. cbn [existsb isFetch].
  now rewrite !orb_true_r.
Qed.

(** C8, the failing input: the earlier revision of the page on a
    production host without [NEXT_PUBLIC_FLASK_API_URL].  It reports no
    configuration error and sends the request to [undefined/execute];
    the current revision, on the same host and code, stops with the
    configuration message and sends nothing. *)
Theorem earlier_unconfigured_host_sends_request :
  isLocalDev unconfiguredHost = false
  /\ NEXT_PUBLIC_FLASK_API_URL unconfiguredHost = None
  /\ snd (Earlier.handleSubmit unconfiguredHost
            (earlierIdleState (js "print(1)")))
     = [ConsoleLog [[63743; 252; 229; 234]%N ++ js " Using production API:";
                    js "undefined/execute"];
        Fetch (js "undefined/execute") (requestBody (js "print(1)"))]
  /\ Earlier.networkError
       (fst (Earlier.handleSubmit unconfiguredHost
               (earlierIdleState (js "print(1)")))) = None
  /\ handleSubmit unconfiguredHost (idleState (js "print(1)"))
     = (idleState (js "print(1)"), [ConsoleError [msgNotConfigured]]).
Proof. repeat split; reflexivity. Qed.

(** * Further properties *)

(** ** Trimming and wrapping *)

Lemma dropWhile_blank (a s : jsstring) :
  Blank a -> dropWhile isWhiteSpace (a ++ s) = dropWhile isWhiteSpace s.
Proof.
  induction 1 as [|c a Hc _ IH]; [reflexivity|].
  cbn [app dropWhile]. now rewrite Hc.
Qed.

Lemma dropWhile_app_kept (s b : jsstring) :
  dropWhile isWhiteSpace s <> [] ->
  dropWhile isWhiteSpace (s ++ b) = dropWhile isWhiteSpace s ++ b.
Proof.
  induction s as [|c s IH]; intros H; [contradiction|].
  cbn [app dropWhile] in *. destruct (isWhiteSpace c); [now apply IH|reflexivity].
Qed.

Lemma dropWhile_nil_blank (s : jsstring) :
  dropWhile isWhiteSpace s = [] -> Blank s.
Proof.
  induction s as [|c s IH]; intros H; [constructor|].
  cbn [dropWhile] in H. destruct (isWhiteSpace c) eqn:W; [|discriminate].
  constructor; [exact W | now apply IH].
Qed.

Lemma dropWhile_all_blank (s : jsstring) :
  Blank s -> dropWhile isWhiteSpace s = [].
Proof.
  intros H. rewrite <- (app_nil_r s). now rewrite dropWhile_blank.
Qed.

Lemma Blank_app (a b : jsstring) : Blank a -> Blank b -> Blank (a ++ b).
Proof. intros Ha Hb. apply Forall_app. now split. Qed.

Lemma Blank_rev (a : jsstring) : Blank a -> Blank (rev a).
Proof. apply Forall_rev. Qed.

Lemma trimEnd_blank (s b : jsstring) : Blank b -> trimEnd (s ++ b) = trimEnd s.
Proof.
  intros H. unfold trimEnd. rewrite rev_app_distr.
  now rewrite dropWhile_blank by now apply Blank_rev.
Qed.

Lemma trim_surrounded (a s b : jsstring) :
  Blank a -> Blank b -> trim (a ++ s ++ b) = trim s.
Proof.
  intros Ha Hb. unfold trim, trimStart. rewrite (dropWhile_blank _ Ha).
  destruct (dropWhile isWhiteSpace s) as [|c r] eqn:E.
  - rewrite dropWhile_all_blank; [reflexivity|].
    apply Blank_app; [now apply dropWhile_nil_blank | exact Hb].
  - rewrite dropWhile_app_kept by congruence. rewrite E.
    now apply trimEnd_blank.
Qed.

Lemma visible_app (a b : jsstring) : visible (a ++ b) = visible a ++ visible b.
Proof. apply filter_app. Qed.

Lemma visible_trimStart (s : jsstring) : visible (trimStart s) = visible s.
Proof.
  unfold trimStart. induction s as [|c s IH]; [reflexivity|].
  cbn [dropWhile]. destruct (isWhiteSpace c) eqn:W; [|reflexivity].
  rewrite IH. cbn [visible filter]. now rewrite W.
Qed.

Lemma visible_rev (s : jsstring) : visible (rev s) = rev (visible s).
Proof.
  unfold visible. induction s as [|c s IH]; [reflexivity|].
  cbn [rev filter]. rewrite filter_app, IH. cbn [filter].
  destruct (negb (isWhiteSpace c)); cbn [rev]; [reflexivity|apply app_nil_r].
Qed.

Lemma visible_trimEnd (s : jsstring) : visible (trimEnd s) = visible s.
Proof.
  unfold trimEnd. rewrite visible_rev.
  change (dropWhile isWhiteSpace (rev s)) with (trimStart (rev s)).
  now rewrite visible_trimStart, visible_rev, rev_involutive.
Qed.

(** Trimming removes white space only. *)
Lemma visible_trim (s : jsstring) : visible (trim s) = visible s.
Proof. unfold trim. now rewrite visible_trimEnd, visible_trimStart. Qed.

Lemma visible_join_lines (ls : list jsstring) :
  visible (join [nl] ls) = List.concat (map visible ls).
Proof.
  induction ls as [|l ls IH]; [reflexivity|].
  destruct ls as [|l2 ls].
  - cbn. now rewrite app_nil_r.
  - change (join [nl] (l :: l2 :: ls)) with (l ++ nl :: join [nl] (l2 :: ls)).
    rewrite visible_app. cbn [map List.concat] in *.
    change (visible (nl :: join [nl] (l2 :: ls)))
      with (visible (join [nl] (l2 :: ls))).
    now rewrite IH.
Qed.

Lemma visible_indented_lines (ls : list jsstring) :
  List.concat (map visible (map indent ls)) = List.concat (map visible ls).
Proof.
  induction ls as [|l ls IH]; [reflexivity|].
  cbn [map List.concat]. rewrite IH. f_equal.
Qed.

Lemma trim_nonempty_visible (s : jsstring) : trim s <> [] -> visible s <> [].
Proof.
  intros H. rewrite <- visible_trimStart.
  assert (Hs : trimStart s <> []) by (intros E; apply H; unfold trim; now rewrite E).
  unfold trimStart in *. clear H.
  induction s as [|c s IH]; [contradiction|].
  cbn [dropWhile] in *. destruct (isWhiteSpace c) eqn:W; [now apply IH|].
  cbn [visible filter]. rewrite W. discriminate.
Qed.

Lemma visible_indented_text (t : jsstring) :
  visible (join [nl] (map indent (split nl t))) = visible t.
Proof.
  rewrite visible_join_lines, visible_indented_lines.
  now rewrite <- visible_join_lines, join_split.
Qed.

(** X1: wrapping touches white space only.  The visible code units of the
    wrapped program are those of the header [def main():] followed by
    those of the user's code, in the same order; for blank code they are
    those of the header followed by [pass]. *)
Theorem wrap_keeps_visible_text (userCode : jsstring) :
  visible (wrapCodeInMainFunction userCode)
  = js "defmain():"
    ++ match trim userCode with
       | [] => js "pass"
       | _ :: _ => visible userCode
       end.
Proof.
  unfold wrapCodeInMainFunction.
  destruct (trim userCode) as [|c t] eqn:E; [reflexivity|].
  rewrite visible_app.
  change (visible (nl :: join [nl] (map indent (split nl (c :: t))) ++ [nl]))
    with (visible (join [nl] (map indent (split nl (c :: t))) ++ [nl])).
  rewrite visible_app, visible_indented_text, <- E, visible_trim.
  change (visible [nl]) with (@nil N). now rewrite app_nil_r.
Qed.

Lemma wrap_changes_text (userCode : jsstring) :
  wrapCodeInMainFunction userCode <> userCode.
Proof.
  intros H. apply (f_equal visible) in H. unfold wrapCodeInMainFunction in H.
  destruct (trim userCode) as [|c t] eqn:E.
  - rewrite <- (visible_trim userCode), E in H. discriminate H.
  - rewrite visible_app in H.
    change (visible (nl :: join [nl] (map indent (split nl (c :: t))) ++ [nl]))
      with (visible (join [nl] (map indent (split nl (c :: t))) ++ [nl])) in H.
    rewrite visible_app, visible_indented_text, <- E, visible_trim in H.
    apply (f_equal (@length N)) in H. rewrite !length_app in H.
    cbn in H. lia.
Qed.

(** X2: in Script mode the code is sent exactly as typed if and only if it
    holds no [return] token: wrapping always changes the text, so a
    script with a token never goes out unchanged. *)
Theorem script_unchanged_iff_no_token (rawCode : jsstring) :
  prepareCodeForExecution rawCode script = rawCode <-> ~ HasReturnToken rawCode.
Proof.
  split.
  - intros H Ht. rewrite (prepare_script_with_token Ht) in H.
    now apply wrap_changes_text in H.
  - intros H. now apply prepare_script_without_token.
Qed.

(** X3: white space around the code has no effect on what Function mode
    sends. *)
Theorem wrap_ignores_surrounding_space (a s b : jsstring) :
  Blank a -> Blank b ->
  prepareCodeForExecution (a ++ s ++ b) function
  = prepareCodeForExecution s function.
Proof.
  intros Ha Hb. cbn [prepareCodeForExecution]. unfold wrapCodeInMainFunction.
  now rewrite trim_surrounded.
Qed.

Lemma wrap_ignores_surrounding_space_witness :
  Blank [nl; 32%N] /\ Blank [9%N; nl]
  /\ prepareCodeForExecution ([nl; 32%N] ++ js "x = 1" ++ [9%N; nl]) function
     = js "def main():" ++ nl :: js "    x = 1" ++ [nl].
Proof.
  assert (Ha : Blank [nl; 32%N]) by (repeat constructor).
  assert (Hb : Blank [9%N; nl]) by (repeat constructor).
  split; [exact Ha|]. split; [exact Hb|].
  now rewrite (wrap_ignores_surrounding_space (js "x = 1") Ha Hb).
Defined.

Lemma map_indent_injective (la lb : list jsstring) :
  map indent la = map indent lb -> la = lb.
Proof.
  revert lb; induction la as [|l la IH]; intros [|l' lb] H;
    try discriminate; [reflexivity|].
  cbn [map] in H. injection H as H1 H2.
  f_equal; [exact H1 | now apply IH].
Qed.

(** X4: wrapping loses nothing but the surrounding white space: two
    non-blank codes with the same wrapped program have the same trimmed
    text. *)
Theorem wrap_injective_on_trimmed (a b : jsstring) :
  trim a <> [] -> trim b <> [] ->
  wrapCodeInMainFunction a = wrapCodeInMainFunction b ->
  trim a = trim b.
Proof.
  intros Ha Hb H. apply (f_equal (split nl)) in H.
  rewrite (wrap_lines a Ha), (wrap_lines b Hb) in H.
  injection H as H. apply app_inv_tail in H. apply map_indent_injective in H.
  now rewrite <- (join_split nl (trim a)), <- (join_split nl (trim b)), H.
Qed.

Lemma wrap_injective_on_trimmed_witness :
  trim (js " x") <> [] /\ trim (js "x ") <> []
  /\ wrapCodeInMainFunction (js " x") = wrapCodeInMainFunction (js "x ")
  /\ trim (js " x") = trim (js "x ").
Proof.
  assert (Ha : trim (js " x") <> []) by discriminate.
  assert (Hb : trim (js "x ") <> []) by discriminate.
  split; [exact Ha|]. split; [exact Hb|]. split; [reflexivity|].
  exact (wrap_injective_on_trimmed (js " x") (js "x ") Ha Hb eq_refl).
Defined.

(** X5: the two revisions of the page prepare the same text except for a
    script with a [return] token, which only the current revision
    wraps. *)
Theorem revisions_prepare_alike (rawCode : jsstring) (mode : ExecutionMode) :
  Earlier.prepareCodeForExecution rawCode mode
  = prepareCodeForExecution rawCode mode
  <-> mode = function \/ ~ HasReturnToken rawCode.
Proof.
  destruct mode.
  - cbn [Earlier.prepareCodeForExecution]. split.
    + intros H. right. intros Ht.
      rewrite (prepare_script_with_token Ht) in H. symmetry in H.
      now apply wrap_changes_text in H.
    + intros [H|H]; [discriminate|].
      symmetry. now apply prepare_script_without_token.
  - split; [now left|reflexivity].
Qed.

(** X6: the mode line of the header announces direct execution exactly
    when the code is sent as typed. *)
Theorem modeLabel_direct_iff_unchanged (userCode : jsstring)
  (mode : ExecutionMode) :
  modeLabel userCode mode = js "Script Mode (direct execution)"
  <-> prepareCodeForExecution userCode mode = userCode.
Proof.
  destruct mode.
  - unfold modeLabel, prepareCodeForExecution.
    destruct (regexTest returnRegex (trim userCode)).
    + split; [discriminate|]. intros H. now apply wrap_changes_text in H.
    + split; reflexivity.
  - cbn [modeLabel prepareCodeForExecution]. split; [discriminate|].
    intros H. now apply wrap_changes_text in H.
Qed.

(** ** More on rendering *)

Section MoreRenderingProperties.

Context {number : Type} {numberOps : Number number} {builtins : Builtins}.




Lemma readProperty_absent (A : Type) (o : list (jsstring * A)) (k : jsstring) :
  lookup k o = None -> k <> protoKey -> ~ In k objectPrototypeMethods ->
  readProperty o k = Absent.
Proof.
  intros Hl Hp Hm. unfold readProperty. rewrite Hl.
  destruct (jsstring_eqb k protoKey) eqn:E;
    [now apply jsstring_eqb_eq in E|].
  destruct (existsb (jsstring_eqb k) objectPrototypeMethods) eqn:Ex;
    [|reflexivity].
  apply existsb_exists in Ex as (m & Hin & Hm'). apply jsstring_eqb_eq in Hm'.
  now subst m.
Qed.

Lemma readProperty_method (A : Type) (o : list (jsstring * A)) (k : jsstring) :
  lookup k o = None -> In k objectPrototypeMethods ->
  readProperty o k = InheritedMethod k.
Proof.
  intros Hl Hm. unfold readProperty. rewrite Hl.
  destruct (jsstring_eqb k protoKey) eqn:E.
  - apply jsstring_eqb_eq in E. subst k. exfalso.
    cbn in Hm. repeat destruct Hm as [Hm|Hm]; try discriminate Hm; contradiction.
  - replace (existsb (jsstring_eqb k) objectPrototypeMethods) with true;
      [reflexivity|].
    symmetry. apply existsb_exists. exists k. split; [exact Hm|].
    now apply jsstring_eqb_eq.
Qed.

(** X9: what a displayed row shows for a value the payload does not hold.
    The index cell of a row the index array is too short for reads
    [undefined].  The cell of a column the row has no entry for reads
    [undefined] too, unless the column is named like a member of
    [Object.prototype]: then the row inherits that member, and the cell
    shows the text of the built-in function (for [__proto__], the text
    of a plain object). *)
Theorem dataframe_missing_values (df : DataFrameResult number) (i : nat)
  (row : JsonObject number) :
  i < 10 -> nth_error (df_data df) i = Some row ->
  exists r,
    nth_error (dataFrameBody df) i = Some r
    /\ (nth_error (df_index df) i = None ->
        nth_error (childrenOf r) 0 = Some (elem "td" [Text (js "undefined")]))
    /\ (forall j col,
          nth_error (df_columns df) j = Some col -> lookup col row = None ->
          (col <> protoKey -> ~ In col objectPrototypeMethods ->
           nth_error (childrenOf r) (S j)
           = Some (elem "td" [Text (js "undefined")]))
          /\ (In col objectPrototypeMethods ->
              nth_error (childrenOf r) (S j)
              = Some (elem "td" [Text (nativeFunctionToString col)]))
          /\ (col = protoKey ->
              nth_error (childrenOf r) (S j)
              = Some (elem "td" [Text (js "[object Object]")]))).
Proof.
  intros Hi Hrow. exists (dataFrameRow df row i). split; [|split].
  - unfold dataFrameBody. rewrite nth_error_app1.
    + apply mapi_nth. rewrite nth_error_firstn. unfold maxRows.
      now destruct (Nat.ltb_spec i 10); [|lia].
    + rewrite mapi_length, length_firstn. unfold maxRows.
      assert (i < length (df_data df)) by (apply nth_error_Some; congruence).
      lia.
  - intros Hidx. cbn. now rewrite Hidx.
  - intros j col Hc Hl.
    assert (Hcell : nth_error (childrenOf (dataFrameRow df row i)) (S j)
                    = Some (elem "td" [Text (cellText row col)])).
    { cbn. now rewrite nth_error_map, Hc. }
    rewrite Hcell. unfold cellText. split; [|split].
    + intros Hp Hm. now rewrite (readProperty_absent _ Hl Hp Hm).
    + intros Hm. now rewrite (readProperty_method _ Hl Hm).
    + intros ->. unfold readProperty. rewrite Hl. reflexivity.
Qed.

(** X10: the default JSON rendering is used for the unrecognized results
    and for no other: a result tagged dataframe, series, image or
    unserializable is never printed as JSON text. *)
Theorem default_rendering_iff_unrecognized (v : JsonValue number) :
  renderResult v = Some (renderDefault v) <-> Unrecognized v.
Proof.
  split; [|apply renderResult_unrecognized].
  destruct v as [| | | |items|o]; try exact (fun _ => I).
  unfold Unrecognized, discriminator, renderResult.
  destruct (lookup (js "_type") o) as [[| | |t| |]|]; try exact (fun _ => I).
  unfold recognizedTypes. cbn [In].
  repeat match goal with
  | |- context [jsstring_eqb t ?k] =>
      let E := fresh "E" in
      destruct (jsstring_eqb t k) eqn:E;
      [match goal with
       | |- option_map _ ?x = _ -> _ => destruct x; discriminate
       end
      | assert (t <> k) by (intros ->; unfold jsstring_eqb in E;
                            destruct (list_eq_dec N.eq_dec k k); congruence);
        clear E]
  end.
  intros _ [H'|[H'|[H'|[H'|[]]]]]; congruence.
Qed.

Lemma errorPanel_nil (r : ApiResponse number) :
  errorPanel r = [] <-> truthy (error r) = false.
Proof.
  unfold errorPanel, truthy. destruct (error r) as [[|c e]|]; split;
    (reflexivity || discriminate).
Qed.

Lemma visualizationsPanel_nil (r : ApiResponse number) :
  visualizationsPanel r = [] <-> hasVisualizations r = false.
Proof.
  unfold visualizationsPanel, hasVisualizations.
  destruct (visualizations r) as [[|v vs]|]; split;
    (reflexivity || discriminate).
Qed.

Lemma stdoutPanel_nil (r : ApiResponse number) :
  stdoutPanel r = [] <-> stdout r = [].
Proof.
  unfold stdoutPanel. destruct (stdout r); split;
    (reflexivity || discriminate).
Qed.

Lemma resultPanel_nil (mode : ExecutionMode) (r : ApiResponse number)
  (res : list node) :
  resultPanel mode r = Some res -> (res = [] <-> hasResult r = false).
Proof.
  unfold resultPanel, hasResult.
  destruct (result r) as [v|]; [|intros [= <-]; now split].
  destruct v; try (intros [= <-]; now split);
    (destruct (renderResult _); cbn [bind]; [|discriminate];
     intros [= <-]; split; discriminate).
Qed.

(** X11: whenever the output column renders (the result of its response,
    if any, can be rendered), it is empty if and only if a request is
    running over a response that has nothing to show: no error text, no
    output, no visualization and no result. *)
Theorem outputColumn_empty_iff (st : PageState number) (panels : list node) :
  outputColumn st = Some panels ->
  (panels = [] <->
   isLoading st = true
   /\ exists r, apiResponse st = Some r /\ NothingToShow r).
Proof.
  unfold outputColumn. destruct (apiResponse st) as [r|] eqn:Er.
  - unfold renderApiResponse.
    destruct (resultPanel (executionMode st) r) as [res|] eqn:Eres;
      cbn [bind isSome negb andb when app]; [|discriminate].
    rewrite !andb_false_r. cbn [when app]. rewrite app_nil_r.
    intros [= <-]. pose proof (resultPanel_nil _ _ Eres) as Hres.
    unfold noOutputNotice, NothingToShow. split.
    + intros H. apply app_eq_nil in H as [He H].
      apply app_eq_nil in H as [Hv H]. apply app_eq_nil in H as [Hs H].
      apply app_eq_nil in H as [Hr Hn].
      apply errorPanel_nil in He. apply visualizationsPanel_nil in Hv.
      apply stdoutPanel_nil in Hs. apply Hres in Hr.
      rewrite He, Hs, Hv, Hr in Hn. cbn in Hn.
      destruct (isLoading st); [|discriminate].
      split; [reflexivity|]. exists r. auto.
    + intros (Hl & r' & [= <-] & He & Hs & Hv & Hr).
      rewrite (proj2 (errorPanel_nil r) He),
        (proj2 (visualizationsPanel_nil r) Hv),
        (proj2 (stdoutPanel_nil r) Hs), (proj2 Hres Hr).
      rewrite He, Hs, Hv, Hr, Hl. reflexivity.
  - cbn [bind isSome negb app]. rewrite !andb_true_r.
    intros [= <-]. split.
    + destruct (isLoading st); discriminate.
    + intros (_ & r & Hr & _). discriminate.
Qed.

(** X12: figures are numbered from one.  In the visualization panel the
    figure at position [i] has the alternative text "Visualization i+1",
    and a matplotlib figure that carries no figure number of its own (or
    the number zero) is headed "Matplotlib Figure i+1". *)
Theorem visualization_numbering (r : ApiResponse number)
  (vs : list (Visualization number)) (i : nat) (viz : Visualization number) :
  visualizations r = Some vs ->
  nth_error vs i = Some viz ->
  exists heading figures label,
    visualizationsPanel r = [elem "div" [heading; elem "div" figures]]
    /\ length figures = length vs
    /\ nth_error figures i
       = Some (elem "div"
                 [elem "div"
                    [elem "span" [Text label];
                     elem "span" [Text (viz_format viz)]];
                  elem "div"
                    [Elem "img"
                       [attr "src" (viz_data viz);
                        attr "alt"
                          (js "Visualization " ++ natToString (i + 1))]
                       []]])
    /\ (viz_type viz = js "matplotlib" ->
        match viz_figure_number viz with
        | Some n => numberIsTruthy n = false
        | None => True
        end ->
        label = [55357; 56520]%N ++ js " Matplotlib Figure "
                ++ natToString (i + 1)).
Proof.
  intros Hv Hi. unfold visualizationsPanel. rewrite Hv.
  destruct vs as [|v0 vs0] eqn:Evs; [now destruct i|]. rewrite <- Evs in *.
  exists (elem "h3" [Text ([55357; 56522]%N ++ js " Visualizations:")]),
    (mapi renderVisualization vs),
    (if jsstring_eqb (viz_type viz) (js "matplotlib")
     then [55357; 56520]%N ++ js " Matplotlib Figure "
          ++ match viz_figure_number viz with
             | Some n => if numberIsTruthy n then numberToString n
                         else natToString (i + 1)
             | None => natToString (i + 1)
             end
     else viz_type viz).
  split; [reflexivity|]. split; [apply mapi_length|].
  split; [now rewrite (mapi_nth renderVisualization _ _ Hi)|].
  intros Ht Hn. rewrite Ht.
  change (jsstring_eqb (js "matplotlib") (js "matplotlib")) with true.
  cbv iota. destruct (viz_figure_number viz) as [n|]; [|reflexivity].
  now rewrite Hn.
Qed.

End MoreRenderingProperties.


(** A row without the columns [b] and [constructor], in a frame without
    index. *)
Lemma dataframe_missing_values_witness :
  nth_error (df_data raggedFrameResult) 0 = Some [(js "a", JNum 1)]
  /\ exists r,
       nth_error (dataFrameBody raggedFrameResult) 0 = Some r
       /\ map textContent (childrenOf r)
          = [js "undefined"; js "1"; js "undefined";
             js "function Object() { [native code] }"].
Proof.
  split; [reflexivity|].
  destruct (@dataframe_missing_values nat natNumber sampleBuiltins raggedFrameResult 0
              [(js "a", JNum 1)]) as (r & Hr & _); [lia|reflexivity|].
  exists r. split; [exact Hr|].
  cbn in Hr. injection Hr as <-. reflexivity.
Defined.

(** A running request over a response with nothing in it: the column is
    empty. *)
Lemma outputColumn_empty_iff_witness :
  let st := {| userCode := js "x"; executionMode := script;
               apiResponse := Some silentResponse; isLoading := true;
               abortController := Some NewAbortController |} in
  outputColumn st = Some []
  /\ isLoading st = true
  /\ exists r, apiResponse st = Some r /\ NothingToShow r.
Proof.
  cbv zeta. split; [reflexivity|].
  pose proof (@outputColumn_empty_iff nat natNumber sampleBuiltins
                {| userCode := js "x"; executionMode := script;
                   apiResponse := Some silentResponse; isLoading := true;
                   abortController := Some NewAbortController |}
                [] eq_refl) as H.
  now apply H.
Defined.

(** The second of two figures, whose own number is zero, is figure 2. *)
Lemma visualization_numbering_witness :
  exists heading figures label,
    visualizationsPanel figuresResponse
    = [elem "div" [heading; elem "div" figures]]
    /\ length figures = 2
    /\ label = [55357; 56520]%N ++ js " Matplotlib Figure 2".
Proof.
  destruct (@visualization_numbering nat natNumber figuresResponse _ 1 _
              eq_refl eq_refl)
    as (heading & figures & label & H1 & H2 & _ & H3).
  exists heading, figures, label.
  split; [exact H1|]. split; [exact H2|]. now apply H3.
Defined.

(** ** More on the submission *)

Section MoreSubmissionProperties.

Context {number : Type} {numberOps : Number number} {builtins : Builtins}.

(** X13: a request is sent exactly when the submission goes ahead (it is
    not the cancellation of a running request and the code is not blank)
    on a host that has an endpoint: a local-development host, or a host
    with a non-empty base URL. *)
Theorem request_sent_iff (h : Host) (st : PageState number) :
  existsb isFetch (snd (handleSubmit h st)) = true
  <-> Proceeds st
      /\ (isLocalDev h = true
          \/ exists u, NEXT_PUBLIC_FLASK_API_URL h = Some u /\ u <> []).
Proof.
  unfold handleSubmit, Proceeds.
  destruct (isLoading st && isSome (abortController st)).
  - cbn. split; [discriminate|]. intros [[H _] _]. discriminate.
  - destruct (trim (userCode st)) as [|c t].
    + cbn. split; [discriminate|]. intros [[_ H] _]. now contradiction H.
    + destruct (isLocalDev h).
      * cbn. split; [|reflexivity]. intros _.
        split; [split; [reflexivity|discriminate]|now left].
      * destruct (NEXT_PUBLIC_FLASK_API_URL h) as [[|d u]|]; cbn.
        -- split; [discriminate|].
           intros [_ [H|(u & [= <-] & H)]]; [discriminate|now contradiction H].
        -- split; [|reflexivity]. intros _.
           split; [split; [reflexivity|discriminate]|].
           right. eexists. split; [reflexivity|discriminate].
        -- split; [discriminate|].
           intros [_ [H|(u & H & _)]]; discriminate.
Qed.

(** X14: what a submission sends.  An issued request is the only one of
    the submission; it goes to the local endpoint on a local-development
    host and to the configured base URL elsewhere, its body is the JSON
    object whose [script] is the prepared code, and the page is left
    loading, with a fresh abort controller and without a response. *)
Theorem request_payload (h : Host) (st : PageState number)
  (url body : jsstring) :
  In (Fetch url body) (snd (handleSubmit h st)) ->
  filter isFetch (snd (handleSubmit h st)) = [Fetch url body]
  /\ body = requestBody
              (prepareCodeForExecution (userCode st) (executionMode st))
  /\ url = (if isLocalDev h then localApiUrl
            else match NEXT_PUBLIC_FLASK_API_URL h with
                 | Some u => u
                 | None => []
                 end)
  /\ isLoading (fst (handleSubmit h st)) = true
  /\ abortController (fst (handleSubmit h st)) = Some NewAbortController
  /\ apiResponse (fst (handleSubmit h st)) = None.
Proof.
  unfold handleSubmit.
  destruct (isLoading st && isSome (abortController st)).
  - cbn. intros [H|[H|[]]]; discriminate.
  - destruct (trim (userCode st)) as [|c t].
    + cbn. intros [H|[]]; discriminate.
    + destruct (isLocalDev h).
      * cbn. intros [H|[H|[]]]; [discriminate|].
        injection H as <- <-. repeat split.
      * destruct (NEXT_PUBLIC_FLASK_API_URL h) as [[|d u]|]; cbn.
        -- intros [H|[]]; discriminate.
        -- intros [H|[H|[]]]; [discriminate|].
           injection H as <- <-. repeat split.
        -- intros [H|[]]; discriminate.
Qed.

(** X15: however the request ends, the page is idle afterwards (not
    loading, no abort controller) with the code and the mode it had, so
    the next submission is never taken for a cancellation. *)
Theorem settled_page_is_idle (o : outcome number) (st : PageState number) :
  let st' := fst (handleSubmit_settle o st) in
  isLoading st' = false
  /\ abortController st' = None
  /\ userCode st' = userCode st
  /\ executionMode st' = executionMode st
  /\ (forall h, ~ In Abort (snd (handleSubmit h st'))).
Proof.
  cbv zeta.
  assert (H : isLoading (fst (handleSubmit_settle o st)) = false
              /\ abortController (fst (handleSubmit_settle o st)) = None
              /\ userCode (fst (handleSubmit_settle o st)) = userCode st
              /\ executionMode (fst (handleSubmit_settle o st))
                 = executionMode st).
  { unfold handleSubmit_settle. destruct o as [ok status text data|err].
    - destruct ok; repeat split.
    - destruct (thrown_isError err && _); repeat split. }
  destruct H as (Hl & Hc & Hu & Hm). repeat split; try assumption.
  intros h. unfold handleSubmit. rewrite Hl. cbn [andb].
  destruct (trim _); [cbn; intros [E|[]]; discriminate|].
  destruct (isLocalDev h).
  - cbn. intros [E|[E|[]]]; discriminate.
  - destruct (match NEXT_PUBLIC_FLASK_API_URL h with
              | Some u => orElse u []
              | None => []
              end); cbn.
    + intros [E|[]]; discriminate.
    + intros [E|[E|[]]]; discriminate.
Qed.

(** X16: a request that fails on the network leaves nothing in the output
    column but the placeholder: the failure goes to the console, the page
    keeps no response and shows no error panel. *)
Theorem network_failure_shows_placeholder (h : Host) (st : PageState number)
  (err : Thrown) :
  existsb isFetch (snd (handleSubmit h st)) = true ->
  outputColumn (fst (handleSubmit_settle (Failed err) (fst (handleSubmit h st))))
  = Some [elem "p" [Text (js "Output will appear here after execution.")]].
Proof.
  unfold handleSubmit.
  destruct (isLoading st && isSome (abortController st)); [discriminate|].
  destruct (trim (userCode st)) as [|c t]; [discriminate|].
  assert (Hs : forall st0 : PageState number,
             apiResponse st0 = None ->
             outputColumn (fst (handleSubmit_settle (Failed err) st0))
             = Some [elem "p"
                       [Text (js "Output will appear here after execution.")]]).
  { intros st0 H0. unfold handleSubmit_settle, outputColumn.
    destruct (thrown_isError err && _); cbn; now rewrite H0. }
  destruct (isLocalDev h); [intros _; now apply Hs|].
  destruct (match NEXT_PUBLIC_FLASK_API_URL h with
            | Some u => orElse u []
            | None => []
            end); [discriminate|].
  intros _. now apply Hs.
Qed.

(** X17: what is displayed after a response depends on its body alone.
    The HTTP status and status text of a response that is not OK go to
    the console; the output column shows the panels of the body, exactly
    as for an OK response with the same body. *)
Theorem display_ignores_http_status (ok : bool) (status : nat)
  (statusText : jsstring) (data : ApiResponse number) (st : PageState number) :
  outputColumn (fst (handleSubmit_settle (Responded ok status statusText data) st))
  = renderApiResponse (executionMode st) false data.
Proof.
  unfold handleSubmit_settle, outputColumn.
  destruct ok; cbn;
    (destruct (renderApiResponse (executionMode st) false data);
     cbn [bind]; [now rewrite app_nil_r|reflexivity]).
Qed.

Lemma hexDigit_printable (d : N) : (32 <= hexDigit d)%N.
Proof.
  unfold hexDigit.
  assert (H : forall n, (32 <= nth n (js "0123456789abcdef") 48)%N).
  { intros n. do 17 (destruct n as [|n]; [cbn; lia|]). cbn. destruct n; lia. }
  apply H.
Qed.

Lemma unicodeEscape_printable (c : N) :
  Forall (fun x => (32 <= x)%N) (unicodeEscape c).
Proof.
  unfold unicodeEscape. repeat constructor; try apply hexDigit_printable;
    cbn; lia.
Qed.

Lemma quoteBody_printable (s : jsstring) :
  Forall (fun x => (32 <= x)%N) (quoteBody s).
Proof.
  assert (H : forall n s, length s <= n ->
                          Forall (fun x => (32 <= x)%N) (quoteBody s)).
  { induction n as [|n IH]; intros [|c s'] Hlen; try constructor;
      [cbn in Hlen; lia|].
    cbn [quoteBody]. cbn [length] in Hlen.
    destruct (isHighSurrogate c) eqn:Hh.
    - destruct s' as [|d s'']; [apply unicodeEscape_printable|].
      destruct (isLowSurrogate d) eqn:Hd.
      + unfold isHighSurrogate, isLowSurrogate in *.
        apply andb_true_iff in Hh as [Hh _]. apply andb_true_iff in Hd as [Hd _].
        apply N.leb_le in Hh, Hd.
        constructor; [lia|]. constructor; [lia|].
        apply IH. cbn [length] in Hlen. lia.
      + apply Forall_app. split; [apply unicodeEscape_printable|].
        apply IH. lia.
    - destruct (isLowSurrogate c).
      + apply Forall_app. split; [apply unicodeEscape_printable|].
        apply IH. lia.
      + apply Forall_app. split; [|apply IH; lia].
        unfold escapeUnit.
        repeat match goal with
        | |- context [if ?b then _ else _] =>
            destruct b eqn:?; [repeat constructor; cbn; lia|]
        end.
        destruct (c <? 32)%N eqn:Hlt; [apply unicodeEscape_printable|].
        apply N.ltb_ge in Hlt. constructor; [exact Hlt|constructor]. }
  apply (H (length s)). lia.
Qed.

Lemma quoteJSONString_printable (s : jsstring) :
  Forall (fun x => (32 <= x)%N) (quoteJSONString s).
Proof.
  unfold quoteJSONString. constructor; [lia|].
  apply Forall_app. split; [apply quoteBody_printable|].
  repeat constructor; lia.
Qed.

(** X18: the request body holds no code unit below U+0020, whatever the
    code holds: line feeds, carriage returns, tabs and the other C0
    control characters of the script leave as escapes, never as they
    are. *)
Theorem requestBody_escapes_c0_controls (scriptToSend : jsstring) :
  Forall (fun c => (32 <= c)%N) (requestBody scriptToSend)
  /\ ~ In nl (requestBody scriptToSend)
  /\ ~ In 13%N (requestBody scriptToSend)
  /\ ~ In 9%N (requestBody scriptToSend).
Proof.
  assert (H : Forall (fun c => (32 <= c)%N) (requestBody scriptToSend)).
  { unfold requestBody. rewrite !Forall_app.
    repeat split; try apply quoteJSONString_printable;
      repeat constructor; cbn; lia. }
  split; [exact H|]. rewrite Forall_forall in H.
  repeat split; intros Hin; apply H in Hin; unfold nl in Hin; lia.
Qed.

End MoreSubmissionProperties.

(** The request of a production host with a base URL. *)
Lemma request_payload_witness :
  let h := {| hostname := Some (js "sandbox.example.com");
              NEXT_PUBLIC_FLASK_API_URL := Some (js "https://api.example.com") |} in
  let body := requestBody (js "def main():" ++ nl :: js "    return 1" ++ [nl]) in
  In (Fetch (js "https://api.example.com") body)
    (snd (handleSubmit h (idleState (js "return 1"))))
  /\ filter isFetch (snd (handleSubmit h (idleState (js "return 1"))))
     = [Fetch (js "https://api.example.com") body].
Proof.
  cbv zeta.
  assert (H : In (Fetch (js "https://api.example.com")
                    (requestBody
                       (js "def main():" ++ nl :: js "    return 1" ++ [nl])))
                (snd (handleSubmit
                        {| hostname := Some (js "sandbox.example.com");
                           NEXT_PUBLIC_FLASK_API_URL :=
                             Some (js "https://api.example.com") |}
                        (idleState (js "return 1"))))).
  { right. left. reflexivity. }
  split; [exact H|]. exact (proj1 (request_payload _ _ _ _ H)).
Defined.

(** A local submission that fails on the network. *)
Lemma network_failure_shows_placeholder_witness :
  existsb isFetch (snd (handleSubmit localHost (idleState (js "x = 1")))) = true
  /\ outputColumn
       (fst (handleSubmit_settle
               (Failed {| thrown_isError := true;
                          thrown_name := js "TypeError";
                          thrown_message := js "Failed to fetch";
                          thrown_string := js "TypeError: Failed to fetch" |})
               (fst (handleSubmit localHost (idleState (js "x = 1"))))))
     = Some [elem "p" [Text (js "Output will appear here after execution.")]].
Proof.
  split; [reflexivity|].
  exact (@network_failure_shows_placeholder nat natNumber sampleBuiltins localHost
           (idleState (js "x = 1")) _ eq_refl).
Defined.

(** A production host without the environment variable. *)
Lemma handleSubmit_unconfigured_witness :
  Proceeds (idleState (js "x = 1")) /\ isLocalDev unconfiguredHost = false
  /\ snd (handleSubmit unconfiguredHost (idleState (js "x = 1")))
     = [ConsoleError [msgNotConfigured]].
Proof.
  assert (Hp : Proceeds (idleState (js "x = 1")))
    by (split; [reflexivity|discriminate]).
  split; [exact Hp|]. split; [reflexivity|].
  exact (proj1 (@handleSubmit_unconfigured nat unconfiguredHost _ Hp
                  eq_refl (or_introl eq_refl))).
Defined.

(** The earlier revision on the same host. *)
Lemma earlier_handleSubmit_always_fetches_witness :
  trim (Earlier.userCode (earlierIdleState (js "x = 1"))) <> []
  /\ existsb isFetch
       (snd (Earlier.handleSubmit unconfiguredHost
               (earlierIdleState (js "x = 1")))) = true.
Proof.
  assert (H : trim (Earlier.userCode (earlierIdleState (js "x = 1"))) <> [])
    by discriminate.
  split; [exact H|].
  exact (earlier_handleSubmit_always_fetches unconfiguredHost
           (earlierIdleState (js "x = 1")) eq_refl H).
Defined.

(** ** The editor cells *)

Lemma editorStep_keeps_snippet (st : EditorState) (e : editorEvent) :
  (es_hasUserEdited st = false ->
   es_userCode st = defaultFunctionCode \/ es_userCode st = defaultScriptCode) ->
  es_hasUserEdited (editorStep st e) = false ->
  es_userCode (editorStep st e) = defaultFunctionCode
  \/ es_userCode (editorStep st e) = defaultScriptCode.
Proof.
  intros Inv. destruct e as [m|v|store]; cbn [editorStep].
  - unfold handleModeChange. cbn [es_userCode es_hasUserEdited].
    intros H. rewrite H. destruct m; [now right|now left].
  - unfold handleCodeChange. cbn [es_userCode es_hasUserEdited].
    set (code := match v with Some v0 => orElse v0 [] | None => [] end).
    destruct (es_hasUserEdited st); cbn [negb andb]; [discriminate|].
    destruct (jsstring_eqb code defaultFunctionCode) eqn:Ef;
      [intros _; left; now apply jsstring_eqb_eq|].
    destruct (jsstring_eqb code defaultScriptCode) eqn:Es;
      [intros _; right; now apply jsstring_eqb_eq|].
    discriminate.
  - unfold loadSaved.
    destruct (savedCode store) as [[|c code]|];
      destruct (savedMode store) as [m|];
      repeat match goal with
      | |- context [if jsstring_eqb m ?k then _ else _] =>
          destruct (jsstring_eqb m k)
      end; cbn [es_userCode es_hasUserEdited];
      try discriminate; exact Inv.
Qed.

(** X19: as long as the page has not marked the code as edited, the code
    in the editor is one of the two default snippets, whatever sequence
    of mode switches, editor changes and restores of saved code led
    there. *)
Theorem unedited_code_is_a_snippet (events : list editorEvent) :
  es_hasUserEdited (editorRun events) = false ->
  es_userCode (editorRun events) = defaultFunctionCode
  \/ es_userCode (editorRun events) = defaultScriptCode.
Proof.
  unfold editorRun.
  assert (H : forall st,
             (es_hasUserEdited st = false ->
              es_userCode st = defaultFunctionCode
              \/ es_userCode st = defaultScriptCode) ->
             es_hasUserEdited (fold_left editorStep events st) = false ->
             es_userCode (fold_left editorStep events st) = defaultFunctionCode
             \/ es_userCode (fold_left editorStep events st)
                = defaultScriptCode).
  { induction events as [|e events IH]; intros st Inv; [exact Inv|].
    cbn [fold_left]. apply IH. now apply editorStep_keeps_snippet. }
  apply H. intros _. now left.
Qed.

Lemma unedited_code_is_a_snippet_witness :
  let events := [ModeChange script; CodeChange (Some defaultFunctionCode);
                 LoadSaved {| savedCode := Some []; savedMode := Some (js "script") |}] in
  es_hasUserEdited (editorRun events) = false
  /\ (es_userCode (editorRun events) = defaultFunctionCode
      \/ es_userCode (editorRun events) = defaultScriptCode).
Proof.
  cbv zeta. split; [reflexivity|].
  exact (unedited_code_is_a_snippet
           [ModeChange script; CodeChange (Some defaultFunctionCode);
            LoadSaved {| savedCode := Some [];
                         savedMode := Some (js "script") |}] eq_refl).
Defined.

(** X20: once the code is marked as edited it stays so, and from then on
    no switch of mode replaces it: after any run of mode switches the
    editor still holds the user's code. *)
Theorem edited_code_survives_mode_switches (st : EditorState)
  (modes : list ExecutionMode) :
  es_hasUserEdited st = true ->
  let st' := fold_left editorStep (map ModeChange modes) st in
  es_userCode st' = es_userCode st
  /\ es_hasUserEdited st' = true
  /\ es_executionMode st' = last modes (es_executionMode st).
Proof.
  cbv zeta. revert st. induction modes as [|m modes IH]; intros st H.
  - cbn [map fold_left last]. auto.
  - cbn [map fold_left editorStep].
    assert (H1 : es_hasUserEdited (handleModeChange m st) = true) by exact H.
    destruct (IH _ H1) as (Hc & Hf & Hm). rewrite Hc, Hf, Hm.
    unfold handleModeChange. cbn [es_userCode es_executionMode]. rewrite H.
    rewrite last_cons. repeat split.
Qed.

Lemma edited_code_survives_mode_switches_witness :
  let st := handleCodeChange (Some (js "x = 1")) initialEditorState in
  es_hasUserEdited st = true
  /\ es_userCode (fold_left editorStep (map ModeChange [script; function; script]) st)
     = js "x = 1".
Proof.
  cbv zeta. split; [reflexivity|].
  exact (proj1 (edited_code_survives_mode_switches
                  (handleCodeChange (Some (js "x = 1")) initialEditorState)
                  [script; function; script] eq_refl)).
Defined.

(** X21: what [saveCode] stores is what the next visit restores: code
    that is not empty comes back with its mode and is marked as edited,
    whatever the page held before.  Empty code is not restored (the
    stored empty string counts as absent); only the mode is. *)
Theorem saved_code_round_trip (st st0 : EditorState) :
  es_executionMode (loadSaved (saveCode st) st0) = es_executionMode st
  /\ (es_userCode st <> [] ->
      es_userCode (loadSaved (saveCode st) st0) = es_userCode st
      /\ es_hasUserEdited (loadSaved (saveCode st) st0) = true)
  /\ (es_userCode st = [] ->
      es_userCode (loadSaved (saveCode st) st0) = es_userCode st0
      /\ es_hasUserEdited (loadSaved (saveCode st) st0)
         = es_hasUserEdited st0).
Proof.
  unfold loadSaved, saveCode. cbn [savedCode savedMode].
  destruct (es_executionMode st); cbn [modeName];
    [change (jsstring_eqb (js "script") (js "script")) with true
    |change (jsstring_eqb (js "function") (js "script")) with false;
     change (jsstring_eqb (js "function") (js "function")) with true];
    cbv iota; destruct (es_userCode st) as [|c code];
    cbn [es_userCode es_hasUserEdited es_executionMode];
    repeat split; try reflexivity; try (intros; congruence).
Qed.

(** ** The two matchers *)

Lemma rmatch_ofAtoms (pat : list atom) (st : mstate) :
  match rmatch (ofAtoms pat) st Some with Some _ => true | None => false end
  = matchAt pat (ms_prev st) (ms_rest st).
Proof.
  revert st; induction pat as [|[|c] pat IH]; intros st; cbn [ofAtoms rmatch matchAt].
  - reflexivity.
  - destruct (xorb _ _); [apply IH|reflexivity].
  - destruct (ms_rest st) as [|x s]; [reflexivity|].
    destruct (N.eqb x c); [|reflexivity].
    now rewrite IH.
Qed.

(** On the patterns both can express, the matcher with alternation and
    repetition answers as the matcher of literals and word boundaries
    does; in particular for [/\breturn\b/]. *)
Lemma regexpTest_ofAtoms (pat : list atom) (s : jsstring) :
  regexpTest (ofAtoms pat) s = regexTest pat s.
Proof.
  unfold regexpTest, regexTest. generalize (@None N) as prev.
  induction s as [|c s IH]; intros prev; cbn [rsearch searchFrom].
  - pose proof (rmatch_ofAtoms pat
                  {| ms_prev := prev; ms_rest := []; ms_group := None |}) as H.
    cbn [ms_prev ms_rest] in H. rewrite <- H.
    destruct (rmatch _ _ _); now rewrite ?orb_false_r.
  - pose proof (rmatch_ofAtoms pat
                  {| ms_prev := prev; ms_rest := c :: s; ms_group := None |}) as H.
    cbn [ms_prev ms_rest] in H. rewrite <- H.
    destruct (rmatch _ _ _); [reflexivity|]. cbn [orb]. apply IH.
Qed.

(** ** The complexity estimate *)

Lemma scanLine_nesting (code : jsstring) (s : scan) (line : jsstring) :
  currentNesting (scanLine code s line)
  = (if isLoopLine line then S (currentNesting s) else currentNesting s)
  /\ maxNesting (scanLine code s line)
     = (if isLoopLine line
        then Nat.max (maxNesting s) (S (currentNesting s))
        else maxNesting s).
Proof.
  unfold scanLine.
  destruct (isLoopLine line);
    destruct (match trim line with [] => true | _ :: _ => false end
              || includes line (js "#")); split; reflexivity.
Qed.

Lemma scanLine_skipped (code : jsstring) (s : scan) (line : jsstring) :
  includes line (js "#") = true ->
  hasRecursion (scanLine code s line) = hasRecursion s
  /\ hasSorting (scanLine code s line) = hasSorting s
  /\ hasSearching (scanLine code s line) = hasSearching s.
Proof.
  intros H. unfold scanLine. rewrite H, orb_true_r.
  destruct (isLoopLine line); repeat split.
Qed.

Lemma scanLine_flags (code : jsstring) (s : scan) (line : jsstring) :
  includes line (js "#") = false -> trim line <> [] ->
  hasRecursion (scanLine code s line)
  = (if regexpTest recursionRegex code then
       match matchGroup1 defNameRegex line with
       | Some funcName =>
           if includes code (funcName ++ js "(") then true else hasRecursion s
       | None => hasRecursion s
       end
     else hasRecursion s)
  /\ hasSorting (scanLine code s line)
     = (if regexpTest sortingRegex line then true else hasSorting s)
  /\ hasSearching (scanLine code s line)
     = (if regexpTest searchingRegex line then true else hasSearching s).
Proof.
  intros H Ht. unfold scanLine. rewrite H.
  destruct (trim line); [contradiction|]. cbn [orb].
  destruct (isLoopLine line); repeat split.
Qed.

Lemma scanLine_sticky (code : jsstring) (s : scan) (line : jsstring) :
  (hasRecursion s = true -> hasRecursion (scanLine code s line) = true)
  /\ (hasSorting s = true -> hasSorting (scanLine code s line) = true).
Proof.
  unfold scanLine.
  destruct (isLoopLine line);
    destruct (match trim line with [] => true | _ :: _ => false end
              || includes line (js "#")); cbn; split; intros ->;
    repeat match goal with
    | |- context [if ?b then _ else _] => destruct b
    | |- context [match ?o with Some _ => _ | None => _ end] => destruct o
    end; reflexivity.
Qed.

Lemma scan_sticky (code : jsstring) (lines : list jsstring) (s : scan) :
  (hasRecursion s = true ->
   hasRecursion (fold_left (scanLine code) lines s) = true)
  /\ (hasSorting s = true ->
      hasSorting (fold_left (scanLine code) lines s) = true).
Proof.
  revert s; induction lines as [|l lines IH]; intros s; [now split|].
  cbn [fold_left]. destruct (IH (scanLine code s l)) as [IH1 IH2].
  destruct (scanLine_sticky code s l) as [S1 S2]. split; auto.
Qed.

(** The lines the loop sees are trimmed and not empty, so its test for a
    blank line never holds. *)
Lemma codeLines_not_blank (code line : jsstring) :
  In line (codeLines code) -> trim line <> [].
Proof.
  unfold codeLines. intros H. apply filter_In in H as [H Hlen].
  apply in_map_iff in H as (x & <- & _). intros E.
  assert (Hx : trim x <> []) by (destruct (trim x); [discriminate|discriminate]).
  apply trim_nonempty_visible in Hx.
  apply Hx. rewrite <- (visible_trim x), <- (visible_trim (trim x)), E.
  reflexivity.
Qed.

Lemma scan_loop_lines (code : jsstring) (lines : list jsstring) (s : scan) :
  maxNesting s = currentNesting s ->
  maxNesting (fold_left (scanLine code) lines s)
  = maxNesting s + length (filter isLoopLine lines)
  /\ currentNesting (fold_left (scanLine code) lines s)
     = maxNesting (fold_left (scanLine code) lines s).
Proof.
  revert s; induction lines as [|l lines IH]; intros s Hs.
  - cbn. split; [lia|now symmetry].
  - cbn [fold_left filter].
    destruct (scanLine_nesting code s l) as [Hc Hm].
    assert (Hs' : maxNesting (scanLine code s l)
                  = currentNesting (scanLine code s l)).
    { rewrite Hc, Hm. destruct (isLoopLine l); lia. }
    destruct (IH _ Hs') as [IH1 IH2]. split; [|exact IH2].
    rewrite IH1, Hm. destruct (isLoopLine l); cbn [length]; lia.
Qed.

Lemma scan_no_flags (code : jsstring) (lines : list jsstring) (s : scan) :
  regexpTest recursionRegex code = false ->
  (forall line,
     In line lines -> trim line <> []
     /\ (includes line (js "#") = false ->
         regexpTest sortingRegex line = false
         /\ regexpTest searchingRegex line = false)) ->
  hasRecursion (fold_left (scanLine code) lines s) = hasRecursion s
  /\ hasSorting (fold_left (scanLine code) lines s) = hasSorting s
  /\ hasSearching (fold_left (scanLine code) lines s) = hasSearching s.
Proof.
  intros Hrec. revert s; induction lines as [|l lines IH]; intros s H;
    [repeat split|].
  cbn [fold_left].
  destruct (IH (scanLine code s l)) as (I1 & I2 & I3);
    [intros line Hl; apply H; now right|].
  rewrite I1, I2, I3. destruct (H l (or_introl eq_refl)) as [Ht Hf].
  destruct (includes l (js "#")) eqn:Hh.
  - now apply scanLine_skipped.
  - destruct (@scanLine_flags code s l Hh Ht) as (F1 & F2 & F3).
    destruct (Hf eq_refl) as [Hs Hq].
    rewrite F1, F2, F3, Hrec, Hs, Hq. repeat split.
Qed.

(** X22: the estimate counts loop lines, not nesting.  For code without a
    function definition line, and without a sort or search word on a
    line free of [#], the answer is decided by the number of non-blank
    lines that contain [for ] or [while ], nested or not: none gives
    O(1), one O(n), two O(n^2), three O(n^3), more O(n^k). *)
Theorem complexity_counts_loop_lines (code : jsstring) :
  regexpTest recursionRegex code = false ->
  (forall line,
     In line (codeLines code) -> includes line (js "#") = false ->
     regexpTest sortingRegex line = false
     /\ regexpTest searchingRegex line = false) ->
  analyzeTimeComplexity code
  = complexityOfNesting (length (filter isLoopLine (codeLines code))).
Proof.
  intros Hrec Hflags. unfold analyzeTimeComplexity.
  destruct (@scan_no_flags code (codeLines code) scanStart Hrec)
    as (H1 & H2 & H3).
  { intros line Hl. split; [now apply (codeLines_not_blank code)|].
    now apply Hflags. }
  destruct (@scan_loop_lines code (codeLines code) scanStart eq_refl)
    as [Hm _].
  cbv zeta. rewrite H1, H2, H3, Hm. reflexivity.
Qed.

Lemma complexity_counts_loop_lines_witness :
  regexpTest recursionRegex twoLoops = false
  /\ length (filter isLoopLine (codeLines twoLoops)) = 2
  /\ analyzeTimeComplexity twoLoops = js "O(n" ++ [178%N] ++ js ")".
Proof.
  split; [reflexivity|]. split; [reflexivity|].
  rewrite (@complexity_counts_loop_lines twoLoops eq_refl); [reflexivity|].
  intros line Hl _. cbn in Hl.
  repeat destruct Hl as [<-|Hl]; try (split; reflexivity). contradiction.
Defined.

(** X23: a function definition counts as recursion when its name is
    followed by an opening parenthesis anywhere in the code, the
    definition line included.  If the code has a definition line (the
    pattern of a [def] line ending in a colon matches it), some non-blank
    line without [#] holds [def] followed by a name, and that name
    directly followed by [(] occurs in the code, the answer is O(?),
    whatever else the code contains. *)
Theorem definition_counts_as_recursion (code line funcName : jsstring) :
  regexpTest recursionRegex code = true ->
  In line (codeLines code) ->
  includes line (js "#") = false ->
  matchGroup1 defNameRegex line = Some funcName ->
  includes code (funcName ++ js "(") = true ->
  analyzeTimeComplexity code = js "O(?)".
Proof.
  intros Hrec Hl Hh Hm Hc. unfold analyzeTimeComplexity. cbv zeta.
  apply in_split in Hl as (l1 & l2 & E).
  pose proof (codeLines_not_blank code line) as Ht.
  rewrite E in Ht |- *. specialize (Ht (in_elt line l1 l2)).
  rewrite fold_left_app. cbn [fold_left].
  destruct (@scanLine_flags code (fold_left (scanLine code) l1 scanStart) line
              Hh Ht)
    as (F1 & _).
  rewrite Hrec, Hm, Hc in F1.
  now rewrite (proj1 (scan_sticky code l2 _) F1).
Qed.

Lemma definition_counts_as_recursion_witness :
  regexpTest recursionRegex plainFunction = true
  /\ In (js "def double(x):") (codeLines plainFunction)
  /\ matchGroup1 defNameRegex (js "def double(x):") = Some (js "double")
  /\ analyzeTimeComplexity plainFunction = js "O(?)".
Proof.
  split; [reflexivity|]. split; [now left|]. split; [reflexivity|].
  apply (@definition_counts_as_recursion plainFunction (js "def double(x):")
           (js "double")); try reflexivity. now left.
Defined.

(** X24: a sort word decides before any loop is counted.  When no
    function definition line is in the code and some non-blank line
    without [#] holds one of the words sort, sorted, heapq or bisect (in
    either case, as a whole word), the answer is O(n log n), however
    many loops the code has; the same word on a line with [#] in it is
    not seen. *)
Theorem sort_word_decides (code line : jsstring) :
  regexpTest recursionRegex code = false ->
  In line (codeLines code) ->
  includes line (js "#") = false ->
  regexpTest sortingRegex line = true ->
  analyzeTimeComplexity code = js "O(n log n)".
Proof.
  intros Hrec Hl Hh Hs. unfold analyzeTimeComplexity. cbv zeta.
  assert (Hr : forall lines s,
             hasRecursion s = false ->
             hasRecursion (fold_left (scanLine code) lines s) = false).
  { induction lines as [|l lines IH]; intros s H0; [exact H0|].
    cbn [fold_left]. apply IH. unfold scanLine. rewrite Hrec.
    destruct (isLoopLine l);
      destruct (match trim l with [] => true | _ :: _ => false end
                || includes l (js "#")); exact H0. }
  rewrite (Hr _ scanStart eq_refl).
  apply in_split in Hl as (l1 & l2 & E).
  pose proof (codeLines_not_blank code line) as Ht.
  rewrite E in Ht |- *. specialize (Ht (in_elt line l1 l2)).
  rewrite fold_left_app. cbn [fold_left].
  destruct (@scanLine_flags code (fold_left (scanLine code) l1 scanStart) line
              Hh Ht)
    as (_ & F2 & _).
  rewrite Hs in F2.
  now rewrite (proj2 (scan_sticky code l2 _) F2).
Qed.

Lemma sort_word_decides_witness :
  let code := join [nl] [js "for x in a:"; js "    b = Sorted(x)";
                         js "# sort again"] in
  In (js "b = Sorted(x)") (codeLines code)
  /\ regexpTest sortingRegex (js "b = Sorted(x)") = true
  /\ analyzeTimeComplexity code = js "O(n log n)".
Proof.
  cbv zeta. split; [right; now left|]. split; [reflexivity|].
  apply (@sort_word_decides _ (js "b = Sorted(x)")); try reflexivity.
  right. now left.
Defined.
